(** * Fake News Detection with Tensorflow: the notebook's pipeline

    A shallow embedding of the code cells of
    [fake_news_detection/Fake News Detection with Tensorflow.ipynb]:
    the data loader, the feature engineering functions, the scikit-learn
    evaluation loop and the Keras training call.

    - Python exceptions are the constructor [Raise] of [result]; nothing in
      the notebook catches an exception, so the embedding has no handler.
    - A pandas [DataFrame] is an index (row labels) and an ordered list of
      named columns; a cell is a Python scalar ([value]).
    - Python's [float] arithmetic is kept behind the interface [Num], with two
      instances: exact rationals ([Q]) and IEEE binary64 (Rocq's primitive
      floats, which compute as Python's floats do).
    - Calls that leave the process (HTTP request, wall clock, console,
      model fitting) are recorded in the [trace] of the [World].
    - What the imported libraries compute (textstat, textblob, pandas'
      JSON reader, scikit-learn, Keras) is the interface [Libraries]. *)

From Stdlib Require Import ZArith QArith Lqa Lia List String Ascii Bool.
From Stdlib Require Import Floats Uint63.
Import ListNotations.

Local Close Scope Q_scope.
Local Open Scope string_scope.
Local Open Scope list_scope.

(* ================================================================== *)
(** * Part I: the model *)
(* ================================================================== *)

(** ** Exceptions and fallible computations *)

Inductive exn : Type :=
| KeyError (labels : list string)
| TypeError
| ValueError
| ZeroDivisionError
| LibraryError (what : string).

Inductive result (A : Type) : Type :=
| Ok (a : A)
| Raise (e : exn).

Arguments Ok {A} a.
Arguments Raise {A} e.

Class Monad (m : Type -> Type) : Type := {
  ret : forall {A : Type}, A -> m A;
  bind : forall {A B : Type}, m A -> (A -> m B) -> m B
}.

Declare Scope monad_scope.
Delimit Scope monad_scope with monad.
Notation "x <- c ;; k" := (bind c (fun x => k))
  (at level 61, c at next level, right associativity) : monad_scope.
Notation "' pat <- c ;; k" := (bind c (fun x => match x with pat => k end))
  (at level 61, pat pattern, c at next level, right associativity) : monad_scope.
Notation "c ;; k" := (bind c (fun _ => k))
  (at level 61, right associativity) : monad_scope.
Local Open Scope monad_scope.

Definition result_bind {A B : Type} (r : result A) (k : A -> result B) : result B :=
  match r with
  | Ok a => k a
  | Raise e => Raise e
  end.

#[export] Instance Monad_result : Monad result := {
  ret := @Ok;
  bind := @result_bind
}.

(** [f] applied to each element in order; the first exception stops the
    traversal (Python's [map], [Series.apply], list comprehensions). *)
Fixpoint mapM {A B : Type} (f : A -> result B) (l : list A) : result (list B) :=
  match l with
  | [] => Ok []
  | a :: t => b <- f a ;; bs <- mapM f t ;; Ok (b :: bs)
  end.

(** ** Numbers *)

(** The arithmetic the notebook performs on Python floats. *)
Class Num (F : Type) : Type := {
  num_add : F -> F -> F;
  num_mul : F -> F -> F;
  num_div : F -> F -> F;
  num_of_int : Z -> F;
  num_is_zero : F -> bool
}.

(** Exact arithmetic: no rounding. *)
#[export] Instance exact : Num Q := {
  num_add := Qplus;
  num_mul := Qmult;
  num_div := Qdiv;
  num_of_int := inject_Z;
  num_is_zero := fun q => (Qnum q =? 0)%Z
}.

(** Conversion of a (small) Python int to a binary64 float. *)
Definition float_of_int (z : Z) : float :=
  if (z <? 0)%Z then PrimFloat.opp (PrimFloat.of_uint63 (Uint63.of_Z (- z)))
  else PrimFloat.of_uint63 (Uint63.of_Z z).

(** IEEE 754 binary64, round to nearest even: Python's [float]. *)
#[export] Instance binary64 : Num float := {
  num_add := PrimFloat.add;
  num_mul := PrimFloat.mul;
  num_div := PrimFloat.div;
  num_of_int := float_of_int;
  num_is_zero := fun x => PrimFloat.eqb x PrimFloat.zero
}.

(** ** Strings *)

(** [needle in hay] for two Python strings: substring search. *)
Fixpoint contains (needle hay : string) : bool :=
  if String.prefix needle hay then true
  else match hay with
       | EmptyString => false
       | String _ rest => contains needle rest
       end.

(** What substring search decides: [needle] occurs somewhere in [hay]. *)
Definition Substring (needle hay : string) : Prop :=
  exists before after : string, hay = (before ++ needle ++ after)%string.

Definition newline : string := String (ascii_of_nat 10) EmptyString.
Definition tab : string := String (ascii_of_nat 9) EmptyString.

(** ** Python scalars and pandas tables *)

Inductive value (F : Type) : Type :=
| VStr (s : string)
| VInt (z : Z)
| VFloat (x : F)
| VNone.

Arguments VStr {F} s.
Arguments VInt {F} z.
Arguments VFloat {F} x.
Arguments VNone {F}.

Record DataFrame (F : Type) : Type := {
  index : list Z;
  columns : list (string * list (value F))
}.

Arguments index {F} d.
Arguments columns {F} d.

Section Frames.
Context {F : Type}.

Definition lookup {A : Type} (name : string) (cols : list (string * A)) : option A :=
  match find (fun c => String.eqb (fst c) name) cols with
  | Some c => Some (snd c)
  | None => None
  end.

(** Assignment to a column: an existing column is replaced in place, a new
    one is appended after the others. *)
Fixpoint update {A : Type} (name : string) (v : A) (cols : list (string * A))
  : list (string * A) :=
  match cols with
  | [] => [(name, v)]
  | c :: rest =>
      if String.eqb (fst c) name then (name, v) :: rest
      else c :: update name v rest
  end.

Definition mem (name : string) (names : list string) : bool :=
  existsb (String.eqb name) names.

Definition nrows (df : DataFrame F) : nat := List.length (index df).

Definition has_column (df : DataFrame F) (name : string) : bool :=
  match lookup name (columns df) with Some _ => true | None => false end.

(** [df[name]] *)
Definition getitem (df : DataFrame F) (name : string) : result (list (value F)) :=
  match lookup name (columns df) with
  | Some col => Ok col
  | None => Raise (KeyError [name])
  end.

(** [df[name] = vals]; pandas refuses a column of another length. *)
Definition setitem (df : DataFrame F) (name : string) (vals : list (value F))
  : result (DataFrame F) :=
  if Nat.eqb (List.length vals) (nrows df)
  then Ok {| index := index df; columns := update name vals (columns df) |}
  else Raise ValueError.

(** [df.drop(columns=names)]: a new table; a label that is not a column
    raises [KeyError]. *)
Definition drop (df : DataFrame F) (names : list string) : result (DataFrame F) :=
  match filter (fun n => negb (has_column df n)) names with
  | [] => Ok {| index := index df;
                columns := filter (fun c => negb (mem (fst c) names)) (columns df) |}
  | missing => Raise (KeyError missing)
  end.

(** [df.reset_index(drop=True)]: rows keep their place and are relabelled
    0, 1, 2, ... *)
Definition reset_index (df : DataFrame F) : DataFrame F :=
  {| index := map Z.of_nat (seq 0 (nrows df)); columns := columns df |}.

(** [series.apply(f)] and [series.map(f)] *)
Definition apply {B : Type} (col : list (value F)) (f : value F -> result B)
  : result (list B) :=
  mapM f col.

(** [df.values]: the table as a list of rows. *)
Definition values (df : DataFrame F) : list (list (value F)) :=
  map (fun i => map (fun c => nth i (snd c) VNone) (columns df)) (seq 0 (nrows df)).

End Frames.

(** ** scikit-learn and Keras objects the notebook builds *)

(** The estimators of [evaluate_sklearn_models], with the constructor
    arguments the notebook passes. *)
Inductive classifier : Type :=
| LogisticRegression (solver : string)
| LinearDiscriminantAnalysis
| KNeighborsClassifier
| DecisionTreeClassifier
| GaussianNB
| SVC (gamma : string)
| BaggingClassifier
| RandomForestClassifier (n_estimators : nat).

(** [model_selection.KFold]; scikit-learn's signature is
    [KFold(n_splits=5, *, shuffle=False, random_state=None)]. *)
Record KFold : Type := {
  n_splits : nat;
  shuffle : bool;
  random_state : option Z
}.

(** [model_selection.KFold(n_splits=k)]: the other arguments keep their
    defaults. *)
Definition KFold_n_splits (k : nat) : KFold :=
  {| n_splits := k; shuffle := false; random_state := None |}.

Inductive layer : Type :=
| Dense (units : nat) (activation : string)
| Dropout (rate_percent : nat).   (* a rate of 0.2 is written 20 *)

(** A compiled [tf.keras.models.Sequential]; [weights] stands for the
    parameters that [fit] updates. *)
Record network (F : Type) : Type := {
  layers : list layer;
  optimizer : string;
  loss : string;
  metrics : list string;
  weights : list F
}.

Arguments layers {F} n.
Arguments optimizer {F} n.
Arguments loss {F} n.
Arguments metrics {F} n.
Arguments weights {F} n.

(** The arguments of [Model.fit] that decide how training proceeds; Keras'
    signature is [fit(x=None, y=None, batch_size=None, epochs=1, ...,
    callbacks=None, validation_split=0.0, validation_data=None, ...)]. *)
Record FitArgs (F : Type) : Type := {
  fit_x : list (list (value F));
  fit_y : list (value F);
  batch_size : option nat;
  epochs : nat;
  callbacks : list string;
  validation_split_percent : nat;
  validation_data : option (list (list (value F)) * list (value F))
}.

Arguments fit_x {F} f.
Arguments fit_y {F} f.
Arguments batch_size {F} f.
Arguments epochs {F} f.
Arguments callbacks {F} f.
Arguments validation_split_percent {F} f.
Arguments validation_data {F} f.

(** [model.fit(x, y, epochs=n)]: every other argument keeps its default. *)
Definition fit_epochs {F : Type} (x : list (list (value F))) (y : list (value F))
  (n : nat) : FitArgs F :=
  {| fit_x := x; fit_y := y; batch_size := None; epochs := n; callbacks := [];
     validation_split_percent := 0; validation_data := None |}.

(** Keras documents [batch_size] as the number of samples per gradient
    update, 32 when it is not given. *)
Definition samples_per_update {F : Type} (a : FitArgs F) : nat :=
  match batch_size a with
  | Some b => b
  | None => 32
  end.

(** Gradient updates in one epoch: the training rows cut into batches,
    the last one possibly shorter. *)
Definition updates_per_epoch {F : Type} (a : FitArgs F) : nat :=
  let n := List.length (fit_x a) in
  let b := samples_per_update a in
  (n + b - 1) / b.

(** Full-batch training: one gradient update per epoch, over all rows. *)
Definition full_batch {F : Type} (a : FitArgs F) : Prop :=
  List.length (fit_x a) <= samples_per_update a.

(** ** The world outside the process *)

Inductive event (F : Type) : Type :=
| EvRequest (url : string)
| EvNow (timestamp : F)
| EvCrossValScore (model : classifier) (X : DataFrame F) (y : list (value F))
    (cv : KFold) (scoring : string)
| EvFit (args : FitArgs F)
| EvEvaluate (X : list (list (value F))) (y : list (value F))
| EvPrint (msg : string).

Arguments EvRequest {F} url.
Arguments EvNow {F} timestamp.
Arguments EvCrossValScore {F} model X y cv scoring.
Arguments EvFit {F} args.
Arguments EvEvaluate {F} X y.
Arguments EvPrint {F} msg.

(** [ticks] counts the readings of the wall clock so far; [trace] lists the
    outside calls in the order they were made. *)
Record World (F : Type) : Type := {
  ticks : nat;
  trace : list (event F)
}.

Arguments ticks {F} w.
Arguments trace {F} w.

Definition emit {F : Type} (e : event F) (w : World F) : World F :=
  {| ticks := ticks w; trace := trace w ++ [e] |}.

(** Computations that may raise and that act on the world. The world a
    computation leaves behind is kept when it raises. *)
Definition M (F A : Type) : Type := World F -> result A * World F.

Definition M_ret {F A : Type} (a : A) : M F A := fun w => (Ok a, w).

Definition M_bind {F A B : Type} (c : M F A) (k : A -> M F B) : M F B :=
  fun w =>
    match c w with
    | (Ok a, w') => k a w'
    | (Raise e, w') => (Raise e, w')
    end.

#[export] Instance Monad_M {F : Type} : Monad (M F) := {
  ret := @M_ret F;
  bind := @M_bind F
}.

(** A pure fallible step inside an effectful computation. *)
Definition lift {F A : Type} (r : result A) : M F A := fun w => (r, w).

(** A [for] loop over a list, for its effects. *)
Fixpoint for_each {F A : Type} (l : list A) (body : A -> M F unit) : M F unit :=
  match l with
  | [] => ret tt
  | a :: rest => body a ;; for_each rest body
  end.

(** [TextBlob(text).sentiment] *)
Record Sentiment (F : Type) : Type := {
  polarity : F;
  subjectivity : F
}.

Arguments polarity {F} s.
Arguments subjectivity {F} s.

(** What the imported libraries compute. Text functions are given on
    strings; handing them anything else raises, see [textstat] and
    [TextBlob] below. *)
Class Libraries (F : Type) : Type := {
  (** [requests.get(url).text] *)
  requests_get_text : string -> result string;
  (** [pd.read_json(text)] *)
  pd_read_json : string -> result (DataFrame F);
  (** the k-th reading of [datetime.datetime.now().timestamp()] *)
  wall_clock : nat -> F;
  (** [textstat.flesch_reading_ease], [lexicon_count], [difficult_words] *)
  flesch_reading_ease : string -> F;
  lexicon_count : string -> Z;
  difficult_words : string -> Z;
  (** [textblob.TextBlob(text).sentiment] *)
  sentiment : string -> Sentiment F;
  (** [model_selection.cross_val_score]: the score of each fold *)
  cross_val_score :
    classifier -> DataFrame F -> list (value F) -> KFold -> string -> result (list F);
  (** [ndarray.mean()], [ndarray.std()] *)
  ndarray_mean : list F -> F;
  ndarray_std : list F -> F;
  (** ["%f" % x] and [str(x)] *)
  format_f : F -> string;
  str_float : F -> string;
  (** [model.fit], [model.evaluate] (loss and accuracy) *)
  keras_fit : network F -> FitArgs F -> result (network F);
  keras_evaluate : network F -> list (list (value F)) -> list (value F) -> result (F * F);
  (** the weights of a freshly built network *)
  initial_weights : list layer -> list F
}.

(** ** The notebook's code cells *)

Section Notebook.
Context {F : Type} {N : Num F} {L : Libraries F}.

(** *** Outside calls *)

Definition requests_get (url : string) : M F string :=
  fun w => (requests_get_text url, emit (EvRequest url) w).

Definition datetime_now_timestamp : M F F :=
  fun w =>
    let t := wall_clock (ticks w) in
    (Ok t, {| ticks := S (ticks w); trace := trace w ++ [EvNow t] |}).

Definition print (msg : string) : M F unit :=
  fun w => (Ok tt, emit (EvPrint msg) w).

Definition model_selection_cross_val_score (model : classifier) (X : DataFrame F)
  (y : list (value F)) (cv : KFold) (scoring : string) : M F (list F) :=
  fun w => (cross_val_score model X y cv scoring,
            emit (EvCrossValScore model X y cv scoring) w).

Definition model_fit (model : network F) (args : FitArgs F) : M F (network F) :=
  fun w => (keras_fit model args, emit (EvFit args) w).

Definition model_evaluate (model : network F) (X : list (list (value F)))
  (y : list (value F)) : M F (F * F) :=
  fun w => (keras_evaluate model X y, emit (EvEvaluate X y) w).

(** *** Loading the data *)

Definition base_url : string :=
  "https://raw.githubusercontent.com/HackBinghamton/MachineLearningWorkshopWeek2/master/fake_news_detection/".

Definition load_fake_news_data (file_name : string)
  : M F (DataFrame F * list (value F)) :=
  let url := (base_url ++ file_name)%string in
  json_data <- requests_get url ;;
  fake_news_data <- lift (pd_read_json json_data) ;;
  fake_news_features <- lift (drop fake_news_data ["is_fake"]) ;;
  fake_news_labels <- lift (getitem fake_news_data "is_fake") ;;
  ret (fake_news_features, fake_news_labels).

Definition load_fake_news_training_data : M F (DataFrame F * list (value F)) :=
  load_fake_news_data "fakenewsnet_modified_training_set.json".

Definition load_fake_news_testing_data : M F (DataFrame F * list (value F)) :=
  load_fake_news_data "fakenewsnet_modified_testing_set.json".

(** *** Python operators on scalars *)

(** [x == s] for a string literal [s] *)
Definition eq_str (x : value F) (s : string) : bool :=
  match x with
  | VStr t => String.eqb t s
  | _ => false
  end.

(** [x in names] for a list of string literals *)
Definition in_list (x : value F) (names : list string) : bool :=
  existsb (eq_str x) names.

(** [needle in x] for a string literal [needle]: substring search when [x]
    is a string, [TypeError] when [x] is a number or [None]. *)
Definition str_in (needle : string) (x : value F) : result bool :=
  match x with
  | VStr s => Ok (contains needle s)
  | _ => Raise TypeError
  end.

(** [a / b] on two ints *)
Definition int_truediv (a b : Z) : result F :=
  if (b =? 0)%Z then Raise ZeroDivisionError
  else Ok (num_div (num_of_int a) (num_of_int b)).

(** [x / d] for a cell [x] and a float [d] *)
Definition truediv_float (x : value F) (d : F) : result (value F) :=
  match x with
  | VInt z =>
      if num_is_zero d then Raise ZeroDivisionError
      else Ok (VFloat (num_div (num_of_int z) d))
  | VFloat a =>
      if num_is_zero d then Raise ZeroDivisionError
      else Ok (VFloat (num_div a d))
  | _ => Raise TypeError
  end.

(** A text function of textstat applied to a cell. *)
Definition textstat {A : Type} (f : string -> A) (text : value F) : result A :=
  match text with
  | VStr s => Ok (f s)
  | _ => Raise TypeError
  end.

(** [textblob.TextBlob(text)]: the constructor refuses what is not a string. *)
Definition TextBlob (text : value F) : result string :=
  match text with
  | VStr s => Ok s
  | _ => Raise TypeError
  end.

(** *** New feature: suspicious country *)

Definition sus_countries : list string := ["MK"; "PA"].

Definition is_suspicious_country (country : value F) : result Z :=
  if in_list country sus_countries then Ok (Z.b2z true)
  else found <- str_in "REDACTED" country ;; Ok (Z.b2z found).

Definition add_suspicious_country_column (fake_news_df : DataFrame F)
  : result (DataFrame F) :=
  country <- getitem fake_news_df "country" ;;
  flags <- apply country (fun x => z <- is_suspicious_country x ;; Ok (VInt z)) ;;
  setitem fake_news_df "is_suspicious_country" flags.

(** *** New features: text complexity *)

Definition add_flesch_reading_ease_column (fake_news_df : DataFrame F)
  : result (DataFrame F) :=
  article_text <- getitem fake_news_df "article_text" ;;
  scores <- apply article_text
              (fun x => s <- textstat flesch_reading_ease x ;; Ok (VFloat s)) ;;
  setitem fake_news_df "flesch_reading_ease" scores.

Definition percent_difficult_words (article : value F) : result (value F) :=
  n <- textstat lexicon_count article ;;
  if (n =? 0)%Z then Ok (VInt 0)
  else
    d <- textstat difficult_words article ;;
    n' <- textstat lexicon_count article ;;
    q <- int_truediv d n' ;;
    Ok (VFloat q).

Definition add_percent_difficult_words_column (fake_news_df : DataFrame F)
  : result (DataFrame F) :=
  article_text <- getitem fake_news_df "article_text" ;;
  ratios <- apply article_text (fun x => percent_difficult_words x) ;;
  setitem fake_news_df "percent_difficult_words" ratios.

(** *** New feature: text sentiment *)

Definition analyze_sentiment (article : value F) : result (F * F) :=
  article <- TextBlob article ;;
  Ok (num_div (num_add (polarity (sentiment article)) (num_of_int 1)) (num_of_int 2),
      num_div (num_add (subjectivity (sentiment article)) (num_of_int 1)) (num_of_int 2)).

(** [zip( *pairs )] for a list of 2-tuples: the list of first components and
    the list of second components, or nothing at all when [pairs] is empty. *)
Definition zip_star (pairs : list (F * F)) : list (list F) :=
  match pairs with
  | [] => []
  | _ => [map fst pairs; map snd pairs]
  end.

(** [a, b = items]: exactly two items, or [ValueError]. *)
Definition unpack2 {A : Type} (items : list A) : result (A * A) :=
  match items with
  | [a; b] => Ok (a, b)
  | _ => Raise ValueError
  end.

Definition add_sentiment_columns (fake_news_df : DataFrame F) : result (DataFrame F) :=
  article_text <- getitem fake_news_df "article_text" ;;
  pairs <- apply article_text analyze_sentiment ;;
  ' (polarities, subjectivities) <- unpack2 (zip_star pairs) ;;
  fake_news_df <- setitem fake_news_df "article_polarity" (map VFloat polarities) ;;
  setitem fake_news_df "article_subjectivity" (map VFloat subjectivities).

(** *** Adding, dropping and scaling features *)

Definition add_features (fake_news_df : DataFrame F) : result (DataFrame F) :=
  fake_news_df <- add_suspicious_country_column fake_news_df ;;
  fake_news_df <- add_flesch_reading_ease_column fake_news_df ;;
  fake_news_df <- add_percent_difficult_words_column fake_news_df ;;
  fake_news_df <- add_sentiment_columns fake_news_df ;;
  Ok fake_news_df.

Definition dropped_columns : list string :=
  ["id"; "article_text"; "country"; "title"; "news_url"].

Definition drop_features (fake_news_df : DataFrame F) : result (DataFrame F) :=
  fake_news_df <- drop fake_news_df dropped_columns ;;
  Ok (reset_index fake_news_df).

Definition scale_creation_dates (fake_news_df : DataFrame F) : M F (DataFrame F) :=
  now_timestamp <- datetime_now_timestamp ;;
  creation_date <- lift (getitem fake_news_df "creation_date") ;;
  scaled <- lift (apply creation_date (fun x => truediv_float x now_timestamp)) ;;
  lift (setitem fake_news_df "creation_date" scaled).

Definition scale_features (fake_news_df : DataFrame F) : M F (DataFrame F) :=
  fake_news_df <- scale_creation_dates fake_news_df ;;
  ret fake_news_df.

Definition refine_fake_news_data (fake_news_df : DataFrame F) : M F (DataFrame F) :=
  fake_news_df <- lift (add_features fake_news_df) ;;
  fake_news_df <- lift (drop_features fake_news_df) ;;
  fake_news_df <- scale_features fake_news_df ;;
  ret fake_news_df.

(** *** The scikit-learn approach *)

Definition models : list (string * classifier) :=
  [ ("Logistic Regression", LogisticRegression "lbfgs");
    ("Linear Discriminant Analysis", LinearDiscriminantAnalysis);
    ("K-Nearest Neighbors", KNeighborsClassifier);
    ("Decision Tree", DecisionTreeClassifier);
    ("Gaussian Naive Bayes", GaussianNB);
    ("Support Vector Machine", SVC "scale");
    ("Bagging Classifier", BaggingClassifier);
    ("Random Forest Classifier", RandomForestClassifier 100) ].

(** The report of one model: its name, the mean and the standard deviation
    of its fold scores, both times 100. *)
Definition msg_of (name : string) (cv_results : list F) : string :=
  (name ++ ": " ++ newline ++ tab ++ "Average accuracy: "
   ++ format_f (num_mul (ndarray_mean cv_results) (num_of_int 100))
   ++ " " ++ newline ++ tab ++ "Standard deviation: "
   ++ format_f (num_mul (ndarray_std cv_results) (num_of_int 100)))%string.

Definition evaluate_sklearn_models (training_features : DataFrame F)
  (training_labels : list (value F)) : M F unit :=
  for_each models (fun entry =>
    let name := fst entry in
    let model := snd entry in
    let kfold := KFold_n_splits 10 in
    cv_results <- model_selection_cross_val_score
                    model training_features training_labels kfold "accuracy" ;;
    print (msg_of name cv_results)).

(** *** The neural network *)

Definition create_neural_network : network F :=
  let dense_relu_layer := Dense 1024 "relu" in
  let dropout_layer := Dropout 20 in
  let dense_softmax_layer := Dense 2 "softmax" in
  let stack := [dense_relu_layer; dropout_layer; dense_softmax_layer] in
  {| layers := stack;
     optimizer := "adam";
     loss := "sparse_categorical_crossentropy";
     metrics := ["accuracy"];
     weights := initial_weights stack |}.

Definition train_neural_network (neural_network_model : network F)
  (training_features : DataFrame F) (training_labels : list (value F))
  : M F (network F) :=
  model_fit neural_network_model
    (fit_epochs (values training_features) training_labels 400).

Definition evaluate_neural_network (neural_network_model : network F)
  (testing_features : DataFrame F) (testing_labels : list (value F)) : M F F :=
  ' (test_loss, test_acc) <- model_evaluate neural_network_model
                               (values testing_features) testing_labels ;;
  ret test_acc.

(** *** Pulling everything together *)

Definition main : M F unit :=
  ' (fake_news_training_features, fake_news_training_labels)
      <- load_fake_news_training_data ;;
  ' (fake_news_testing_features, fake_news_testing_labels)
      <- load_fake_news_testing_data ;;
  fake_news_training_features <- refine_fake_news_data fake_news_training_features ;;
  fake_news_testing_features <- refine_fake_news_data fake_news_testing_features ;;
  evaluate_sklearn_models fake_news_training_features fake_news_training_labels ;;
  let neural_network_model := create_neural_network in
  neural_network_model <- train_neural_network neural_network_model
                            fake_news_training_features fake_news_training_labels ;;
  acc <- evaluate_neural_network neural_network_model
           fake_news_testing_features fake_news_testing_labels ;;
  print (str_float acc).

End Notebook.

(** ** Statement vocabulary *)

Section Vocabulary.
Context {F : Type}.

(** Column [dst] is [f] applied row by row to column [src]: both exist, have
    the same number of cells, and the cell of [dst] at each position is the
    result of [f] on the cell of [src] at that position. *)
Definition row_by_row (f : value F -> result (value F))
  (src dst : option (list (value F))) : Prop :=
  exists s d, src = Some s /\ dst = Some d /\ Forall2 (fun x v => f x = Ok v) s d.

(** [df[name]] as an optional column. *)
Definition column (df : DataFrame F) (name : string) : option (list (value F)) :=
  lookup name (columns df).

Definition is_text (v : value F) : Prop :=
  match v with VStr _ => True | _ => False end.

Definition is_number (v : value F) : Prop :=
  match v with VInt _ | VFloat _ => True | _ => False end.

(** A column of [df] that has one cell per row, each satisfying [P]. *)
Definition column_of (P : value F -> Prop) (df : DataFrame F) (name : string) : Prop :=
  exists col, column df name = Some col /\ List.length col = nrows df /\ Forall P col.

(** A numeric cell as a float. *)
Definition as_float {N : Num F} (v : value F) : option F :=
  match v with
  | VInt z => Some (num_of_int z)
  | VFloat x => Some x
  | _ => None
  end.

(** The messages printed, in order, among the events of a trace. *)
Definition printed (t : list (event F)) : list string :=
  flat_map (fun e => match e with EvPrint msg => [msg] | _ => [] end) t.

(** The cross-validation calls made, in order: estimator, splitter, scoring. *)
Definition cross_validations (t : list (event F)) : list (classifier * KFold * string) :=
  flat_map (fun e => match e with
                     | EvCrossValScore model _ _ cv scoring => [(model, cv, scoring)]
                     | _ => []
                     end) t.

(** The calls of [fit], in order. *)
Definition fitted (t : list (event F)) : list (FitArgs F) :=
  flat_map (fun e => match e with EvFit args => [args] | _ => [] end) t.

End Vocabulary.

Arguments lookup : simpl never.
Arguments column : simpl never.

Section Cells.
Context {F : Type} {N : Num F} {L : Libraries F}.

(** What each feature function computes for one row, as the cell it stores. *)
Definition suspicious_country_cell (country : value F) : result (value F) :=
  z <- is_suspicious_country country ;; Ok (VInt z).

Definition flesch_cell (article : value F) : result (value F) :=
  s <- textstat flesch_reading_ease article ;; Ok (VFloat s).

Definition polarity_cell (article : value F) : result (value F) :=
  pq <- analyze_sentiment article ;; Ok (VFloat (fst pq)).

Definition subjectivity_cell (article : value F) : result (value F) :=
  pq <- analyze_sentiment article ;; Ok (VFloat (snd pq)).

Definition scaled_cell (now_timestamp : F) (creation_date : value F) : result (value F) :=
  truediv_float creation_date now_timestamp.

(** The columns of a table after [add_features] stored its five columns. *)
Definition added_columns (cols : list (string * list (value F)))
  (flags scores ratios polarities subjectivities : list (value F))
  : list (string * list (value F)) :=
  update "article_subjectivity" subjectivities
    (update "article_polarity" polarities
      (update "percent_difficult_words" ratios
        (update "flesch_reading_ease" scores
          (update "is_suspicious_country" flags cols)))).

(** The columns after pruning and scaling as well. *)
Definition refined_columns (cols : list (string * list (value F)))
  (flags scores ratios polarities subjectivities scaled : list (value F))
  : list (string * list (value F)) :=
  update "creation_date" scaled
    (filter (fun c => negb (mem (fst c) dropped_columns))
      (added_columns cols flags scores ratios polarities subjectivities)).

(** The outcome of a run of [refine_fake_news_data] that returns: the three
    columns read, the six columns computed from them row by row, and the
    table and world that result. *)
Inductive refines (df : DataFrame F) (w : World F) : DataFrame F -> World F -> Prop :=
| refines_intro (country text dates flags scores ratios scaled : list (value F))
    (pairs : list (F * F)) :
    column df "country" = Some country ->
    column df "article_text" = Some text ->
    column df "creation_date" = Some dates ->
    Forall (fun n => has_column df n = true) dropped_columns ->
    List.length country = nrows df ->
    List.length text = nrows df ->
    List.length dates = nrows df ->
    nrows df <> 0 ->
    Forall2 (fun x v => suspicious_country_cell x = Ok v) country flags ->
    Forall2 (fun x v => flesch_cell x = Ok v) text scores ->
    Forall2 (fun x v => percent_difficult_words x = Ok v) text ratios ->
    Forall2 (fun x pq => analyze_sentiment x = Ok pq) text pairs ->
    Forall2 (fun x v => scaled_cell (wall_clock (ticks w)) x = Ok v) dates scaled ->
    refines df w
      {| index := map Z.of_nat (seq 0 (nrows df));
         columns := refined_columns (columns df) flags scores ratios
                      (map VFloat (map fst pairs)) (map VFloat (map snd pairs)) scaled |}
      {| ticks := S (ticks w);
         trace := trace w ++ [EvNow (wall_clock (ticks w))] |}.

(** The events of evaluating one model whose cross-validation returned. *)
Definition evaluation_events (X : DataFrame F) (y : list (value F))
  (entry : string * classifier) (cv_results : list F) : list (event F) :=
  [ EvCrossValScore (snd entry) X y (KFold_n_splits 10) "accuracy";
    EvPrint (msg_of (fst entry) cv_results) ].

(** The fold scores of each model of a list, when every call returns. *)
Definition all_scored (X : DataFrame F) (y : list (value F))
  (entries : list (string * classifier)) (scores : list (list F)) : Prop :=
  Forall2 (fun entry cv_results =>
             cross_val_score (snd entry) X y (KFold_n_splits 10) "accuracy"
             = Ok cv_results)
          entries scores.

Fixpoint events_of (X : DataFrame F) (y : list (value F))
  (entries : list (string * classifier)) (scores : list (list F)) : list (event F) :=
  match entries, scores with
  | entry :: entries', cv_results :: scores' =>
      evaluation_events X y entry cv_results ++ events_of X y entries' scores'
  | _, _ => []
  end.

(** The loop of [evaluate_sklearn_models] over any list of named estimators. *)
Definition evaluation_loop (X : DataFrame F) (y : list (value F))
  (entries : list (string * classifier)) : M F unit :=
  for_each entries (fun entry =>
    let name := fst entry in
    let model := snd entry in
    let kfold := KFold_n_splits 10 in
    cv_results <- model_selection_cross_val_score model X y kfold "accuracy" ;;
    print (msg_of name cv_results)).

End Cells.

(** The columns the feature functions write. *)
Definition computed_columns : list string :=
  ["is_suspicious_country"; "flesch_reading_ease"; "percent_difficult_words";
   "article_polarity"; "article_subjectivity"; "creation_date"].

(** The columns the pipeline reads. *)
Definition required_columns : list string :=
  ["id"; "article_text"; "country"; "title"; "news_url"; "creation_date"].

(** The five columns [add_features] writes, in the order it writes them. *)
Definition added_feature_columns : list string :=
  ["is_suspicious_country"; "flesch_reading_ease"; "percent_difficult_words";
   "article_polarity"; "article_subjectivity"].

(** The world after one more reading of the clock. *)
Definition ticked {F : Type} {L : Libraries F} (w : World F) : World F :=
  {| ticks := S (ticks w); trace := trace w ++ [EvNow (wall_clock (ticks w))] |}.

(** ** Sample data *)

(** A small table and stand-ins for the libraries, over exact arithmetic
    and over binary64, on which the functions can be run. *)
Module Sample.

Definition articles : DataFrame Q :=
  {| index := [7; 3]%Z;
     columns :=
       [ ("id", [VInt 101; VInt 102]);
         ("news_url", [VStr "http://a.example/1"; VStr "http://b.example/2"]);
         ("title", [VStr "Council approves budget"; VStr "You will not believe this"]);
         ("article_text", [VStr "The council met on Monday."; VStr ""]);
         ("country", [VStr "US"; VStr "REDACTED FOR PRIVACY"]);
         ("creation_date", [VInt 1000000000; VInt 1500000000]);
         ("share_count", [VInt 12; VInt 0]) ] |}.

Definition labelled_articles : DataFrame Q :=
  {| index := index articles;
     columns := columns articles ++ [("is_fake", [VInt 0; VInt 1])] |}.

(** The same columns and no row. *)
Definition no_articles : DataFrame Q :=
  {| index := []; columns := map (fun c => (fst c, [])) (columns articles) |}.


(** Thirty-three rows of two numeric features, and their labels. *)
Definition training_features : DataFrame Q :=
  {| index := map Z.of_nat (seq 0 33);
     columns := [ ("is_suspicious_country", repeat (VInt 0) 33);
                  ("creation_date", repeat (VFloat (1 # 2)%Q) 33) ] |}.

Definition training_labels : list (value Q) := repeat (VInt 1) 33.

Definition world : World Q := {| ticks := 0; trace := [] |}.

Definition libraries : Libraries Q :=
  {| requests_get_text := fun _ => Ok "{}";
     pd_read_json := fun _ => Ok labelled_articles;
     wall_clock := fun _ => inject_Z 1700000000;
     flesch_reading_ease := fun s => inject_Z (Z.of_nat (String.length s));
     lexicon_count := fun s => Z.of_nat (String.length s / 5);
     difficult_words := fun s => Z.of_nat (String.length s / 13);
     sentiment := fun s =>
       if String.eqb s "" then {| polarity := 0; subjectivity := 0 |}
       else {| polarity := - (1 # 4); subjectivity := 1 # 2 |};
     cross_val_score := fun _ _ _ _ _ => Ok [1; 1 # 2];
     ndarray_mean := fun _ => 3 # 4;
     ndarray_std := fun _ => 1 # 4;
     format_f := fun _ => "75.000000";
     str_float := fun _ => "0.5";
     keras_fit := fun model _ => Ok model;
     keras_evaluate := fun _ _ _ => Ok (1 # 2, 1 # 2);
     initial_weights := fun _ => [] |}%Q.



(** The sample articles with the second country missing. *)
Definition unregistered : DataFrame Q :=
  {| index := index articles;
     columns := update "country" [VStr "US"; VNone] (columns articles) |}.

(** The sample articles without titles. *)
Definition untitled : DataFrame Q :=
  {| index := index articles;
     columns := filter (fun c => negb (String.eqb (fst c) "title")) (columns articles) |}.

(** A later moment of a run: five readings of the clock were made. *)
Definition later : World Q := {| ticks := 5; trace := [] |}.

End Sample.

(* ================================================================== *)
(** * Part II: properties *)
(* ================================================================== *)

(** ** Fallible computations *)

Lemma result_bind_Ok {A B : Type} (r : result A) (k : A -> result B) (b : B) :
  bind r k = Ok b -> exists a, r = Ok a /\ k a = Ok b.
Proof.
  destruct r as [a | e]; cbn; intros H.
  - exists a; split; [reflexivity | exact H].
  - discriminate H.
Qed.

Lemma result_bind_ret {A B : Type} (a : A) (k : A -> result B) :
  bind (Ok a) k = k a.
Proof. reflexivity. Qed.

Lemma mapM_Forall2 {A B : Type} (f : A -> result B) (l : list A) (out : list B) :
  mapM f l = Ok out -> Forall2 (fun a b => f a = Ok b) l out.
Proof.
  revert out; induction l as [| a t IH]; cbn; intros out H.
  - injection H as <-. constructor.
  - destruct (f a) as [b | e] eqn:Ea; cbn in H; [| discriminate H].
    destruct (mapM f t) as [bs | e] eqn:Et; cbn in H; [| discriminate H].
    injection H as <-. constructor; [exact Ea | apply IH; reflexivity].
Qed.

Lemma Forall2_mapM {A B : Type} (f : A -> result B) (l : list A) (out : list B) :
  Forall2 (fun a b => f a = Ok b) l out -> mapM f l = Ok out.
Proof.
  induction 1 as [| a b t bs Ha _ IH]; cbn; [reflexivity |].
  rewrite Ha; cbn. rewrite IH; reflexivity.
Qed.

Lemma mapM_total {A B : Type} (f : A -> result B) (l : list A) :
  Forall (fun a => exists b, f a = Ok b) l -> exists out, mapM f l = Ok out.
Proof.
  induction 1 as [| a t [b Hb] _ [bs IH]]; cbn.
  - eexists; reflexivity.
  - rewrite Hb; cbn. rewrite IH; cbn. eexists; reflexivity.
Qed.

Lemma Forall2_same_length {A B : Type} (R : A -> B -> Prop) (l : list A) (l' : list B) :
  Forall2 R l l' -> List.length l' = List.length l.
Proof. induction 1; cbn; congruence. Qed.

Lemma M_bind_Ok {F A B : Type} (c : M F A) (k : A -> M F B) (w w' : World F) (b : B) :
  bind c k w = (Ok b, w') -> exists a w1, c w = (Ok a, w1) /\ k a w1 = (Ok b, w').
Proof.
  cbn; unfold M_bind. destruct (c w) as [[a | e] w1]; intros H.
  - exists a, w1; split; [reflexivity | exact H].
  - discriminate H.
Qed.

Lemma lift_Ok {F A : Type} (r : result A) (w w' : World F) (a : A) :
  lift r w = (Ok a, w') -> r = Ok a /\ w' = w.
Proof. unfold lift; intros H; injection H as -> ->; split; reflexivity. Qed.

Lemma lift_bind {F A B : Type} (r : result A) (k : A -> M F B) (w : World F) :
  bind (lift r) k w = match r with
                      | Ok a => k a w
                      | Raise e => (Raise e, w)
                      end.
Proof. destruct r; reflexivity. Qed.

Lemma M_bind_run {F A B : Type} (c : M F A) (k : A -> M F B) (w : World F) :
  bind c k w = match c w with
               | (Ok a, w1) => k a w1
               | (Raise e, w1) => (Raise e, w1)
               end.
Proof. reflexivity. Qed.

(** ** Substring search *)

Lemma prefix_append (p s : string) :
  String.prefix p s = true <-> exists rest, s = (p ++ rest)%string.
Proof.
  revert s; induction p as [| a p IH]; intros s.
  - destruct s; cbn; (split; [intros _; eexists; reflexivity | reflexivity]).
  - destruct s as [| b s]; cbn.
    + split; [discriminate | intros [rest H]; discriminate H].
    + destruct (Ascii.ascii_dec a b) as [-> | Hab].
      * rewrite IH. split; intros [rest H]; exists rest; congruence.
      * split; [discriminate | intros [rest H]; congruence].
Qed.

Lemma contains_empty (needle : string) :
  contains needle "" = String.prefix needle "".
Proof. destruct needle; reflexivity. Qed.

Lemma contains_String (needle : string) (c : ascii) (hay : string) :
  contains needle (String c hay)
  = String.prefix needle (String c hay) || contains needle hay.
Proof.
  cbn [contains]. destruct (String.prefix needle (String c hay)); reflexivity.
Qed.

Lemma Substring_here_or_later (needle : string) (c : ascii) (hay : string) :
  Substring needle (String c hay) <->
  (exists rest, String c hay = (needle ++ rest)%string) \/ Substring needle hay.
Proof.
  split.
  - intros [[| b before] [after H]]; cbn in H.
    + left. exists after. exact H.
    + right. injection H as _ H. exists before, after. exact H.
  - intros [[rest H] | [before [after H]]].
    + exists ""%string, rest. exact H.
    + exists (String c before), after. cbn. rewrite H. reflexivity.
Qed.

Lemma contains_Substring (needle hay : string) :
  contains needle hay = true <-> Substring needle hay.
Proof.
  induction hay as [| c hay IH].
  - rewrite contains_empty, prefix_append. split.
    + intros [rest H]. exists ""%string, rest. exact H.
    + intros [[| b before] [after H]]; cbn in H; [| discriminate H].
      exists after. exact H.
  - rewrite contains_String, Bool.orb_true_iff, prefix_append, IH.
    symmetry. apply Substring_here_or_later.
Qed.

(** ** Scalar feature functions *)

Section Scalars.
Context {F : Type} {N : Num F} {L : Libraries F}.

Lemma in_list_In (s : string) (names : list string) :
  in_list (F:=F) (VStr s) names = true <-> In s names.
Proof.
  unfold in_list. rewrite existsb_exists. split.
  - intros [n [Hin Heq]]. cbn in Heq. apply String.eqb_eq in Heq. subst. exact Hin.
  - intros Hin. exists s. split; [exact Hin | cbn; apply String.eqb_refl].
Qed.

Lemma In_sus_countries (country : string) :
  In country sus_countries <-> country = "MK" \/ country = "PA".
Proof. cbn. intuition congruence. Qed.

(** C1. For every country string, [is_suspicious_country] returns 1 when the
    string is "MK" or "PA" or contains the substring "REDACTED", and
    returns 0 when it is neither of the two nor contains "REDACTED". *)
Theorem is_suspicious_country_flag (country : string) :
  (country = "MK" \/ country = "PA" \/ Substring "REDACTED" country ->
   is_suspicious_country (F:=F) (VStr country) = Ok 1%Z) /\
  (country <> "MK" -> country <> "PA" -> ~ Substring "REDACTED" country ->
   is_suspicious_country (F:=F) (VStr country) = Ok 0%Z).
Proof.
  unfold is_suspicious_country. split.
  - intros H. rewrite <- or_assoc, <- In_sus_countries in H. destruct H as [Hin | Hsub].
    + apply in_list_In in Hin. rewrite Hin. reflexivity.
    + destruct (in_list (VStr country) sus_countries); [reflexivity |].
      apply contains_Substring in Hsub. cbn. rewrite Hsub. reflexivity.
  - intros HMK HPA Hsub.
    destruct (in_list (VStr country) sus_countries) eqn:E.
    + apply in_list_In, In_sus_countries in E. tauto.
    + cbn. destruct (contains "REDACTED" country) eqn:C; [| reflexivity].
      apply contains_Substring in C. contradiction.
Qed.

Lemma is_suspicious_country_text (country : string) :
  exists z, is_suspicious_country (F:=F) (VStr country) = Ok z.
Proof.
  unfold is_suspicious_country.
  destruct (in_list (VStr country) sus_countries); cbn; eexists; reflexivity.
Qed.

Lemma percent_difficult_words_text (article : string) :
  percent_difficult_words (VStr article)
  = if (lexicon_count article =? 0)%Z then Ok (VInt 0)
    else Ok (VFloat (num_div (num_of_int (difficult_words article))
                             (num_of_int (lexicon_count article)))).
Proof.
  unfold percent_difficult_words, int_truediv, textstat.
  cbn [bind Monad_result result_bind].
  destruct (lexicon_count article =? 0)%Z; reflexivity.
Qed.

(** C3. For every article text whose lexicon count is zero,
    [percent_difficult_words] returns exactly 0; the division, which would
    raise [ZeroDivisionError] on a zero count, is not reached, and no text
    makes the function raise that error. For a text with a nonzero lexicon
    count it returns the difficult-word count divided by the lexicon count. *)
Theorem percent_difficult_words_guard (article : string) :
  (lexicon_count article = 0%Z ->
   percent_difficult_words (VStr article) = Ok (VInt 0)) /\
  (lexicon_count article <> 0%Z ->
   percent_difficult_words (VStr article)
   = Ok (VFloat (num_div (num_of_int (difficult_words article))
                         (num_of_int (lexicon_count article))))) /\
  (forall d : Z, int_truediv d 0 = Raise ZeroDivisionError) /\
  (exists v, percent_difficult_words (VStr article) = Ok v).
Proof.
  rewrite percent_difficult_words_text. repeat split.
  - intros H. rewrite H. reflexivity.
  - intros H. apply Z.eqb_neq in H. rewrite H. reflexivity.
  - destruct (lexicon_count article =? 0)%Z; eexists; reflexivity.
Qed.


End Scalars.

(** ** Tables *)

Section Tables.
Context {F : Type}.

Lemma lookup_update {A : Type} (n m : string) (v : A) (cols : list (string * A)) :
  lookup n (update m v cols) = if String.eqb m n then Some v else lookup n cols.
Proof.
  unfold lookup. induction cols as [| [k x] rest IH]; cbn [update find fst snd].
  - destruct (String.eqb m n); reflexivity.
  - destruct (String.eqb k m) eqn:Ekm; cbn [find fst snd].
    + apply String.eqb_eq in Ekm; subst k.
      destruct (String.eqb m n); reflexivity.
    + destruct (String.eqb k n) eqn:Ekn.
      * apply String.eqb_eq in Ekn; subst k.
        rewrite String.eqb_sym, Ekm. reflexivity.
      * exact IH.
Qed.

Lemma lookup_filter {A : Type} (n : string) (names : list string)
  (cols : list (string * A)) :
  lookup n (filter (fun c => negb (mem (fst c) names)) cols)
  = if mem n names then None else lookup n cols.
Proof.
  unfold lookup. induction cols as [| [k x] rest IH]; cbn [filter find fst snd].
  - destruct (mem n names); reflexivity.
  - destruct (String.eqb k n) eqn:Ekn.
    + apply String.eqb_eq in Ekn; subst k.
      destruct (mem n names) eqn:Em; cbn [negb find fst snd].
      * rewrite IH. reflexivity.
      * rewrite String.eqb_refl. reflexivity.
    + destruct (mem k names); cbn [negb find fst snd]; [exact IH |].
      rewrite Ekn. exact IH.
Qed.

Lemma nrows_reset_index (df : DataFrame F) : nrows (reset_index df) = nrows df.
Proof. unfold reset_index, nrows; cbn. rewrite length_map, length_seq. reflexivity. Qed.

Lemma setitem_Ok (df df' : DataFrame F) (name : string) (vals : list (value F)) :
  setitem df name vals = Ok df' ->
  List.length vals = nrows df /\
  df' = {| index := index df; columns := update name vals (columns df) |}.
Proof.
  unfold setitem. destruct (Nat.eqb (List.length vals) (nrows df)) eqn:E; intros H.
  - apply Nat.eqb_eq in E. injection H as <-. split; [exact E | reflexivity].
  - discriminate H.
Qed.

Lemma setitem_same_length (df : DataFrame F) (name : string) (vals : list (value F)) :
  List.length vals = nrows df ->
  setitem df name vals
  = Ok {| index := index df; columns := update name vals (columns df) |}.
Proof. intros H. unfold setitem. rewrite H, Nat.eqb_refl. reflexivity. Qed.

Lemma getitem_Ok (df : DataFrame F) (name : string) (col : list (value F)) :
  getitem df name = Ok col <-> column df name = Some col.
Proof.
  unfold getitem, column. destruct (lookup name (columns df)); split; congruence.
Qed.

Lemma getitem_missing (df : DataFrame F) (name : string) :
  column df name = None -> getitem df name = Raise (KeyError [name]).
Proof. unfold getitem, column. intros ->. reflexivity. Qed.

Lemma has_column_column (df : DataFrame F) (name : string) :
  has_column df name = true <-> exists col, column df name = Some col.
Proof.
  unfold has_column, column. destruct (lookup name (columns df)) as [c |].
  - split; [intros _; exists c; reflexivity | reflexivity].
  - split; [discriminate | intros [c H]; discriminate H].
Qed.

Lemma drop_Ok (df df' : DataFrame F) (names : list string) :
  drop df names = Ok df' <->
  Forall (fun n => has_column df n = true) names /\
  df' = {| index := index df;
           columns := filter (fun c => negb (mem (fst c) names)) (columns df) |}.
Proof.
  unfold drop.
  destruct (filter (fun n => negb (has_column df n)) names) as [| m ms] eqn:E.
  - assert (Forall (fun n => has_column df n = true) names) as Hall.
    { apply Forall_forall. intros n Hn.
      destruct (has_column df n) eqn:Hc; [reflexivity |].
      assert (In n (filter (fun n => negb (has_column df n)) names)) as Hin
        by (apply filter_In; split; [exact Hn | rewrite Hc; reflexivity]).
      rewrite E in Hin. destruct Hin. }
    split.
    + intros H. injection H as <-. split; [exact Hall | reflexivity].
    + intros [_ ->]. reflexivity.
  - split; [discriminate |]. intros [Hall _].
    assert (In m (filter (fun n => negb (has_column df n)) names)) as Hin
      by (rewrite E; left; reflexivity).
    apply filter_In in Hin as [Hin Hneg].
    rewrite Forall_forall in Hall. rewrite (Hall m Hin) in Hneg. discriminate Hneg.
Qed.

Lemma drop_missing (df : DataFrame F) (name : string) :
  has_column df name = false -> drop df [name] = Raise (KeyError [name]).
Proof. intros H. unfold drop. cbn. rewrite H. reflexivity. Qed.

(** The pattern of the three [add_..._column] functions: read one column,
    compute a new one from it cell by cell, store it. *)
Lemma derived_column_Ok (df df' : DataFrame F) (src dst : string)
  (f : value F -> result (value F)) :
  (col <- getitem df src ;; new <- apply col f ;; setitem df dst new) = Ok df' ->
  exists col new,
    column df src = Some col /\
    Forall2 (fun x v => f x = Ok v) col new /\
    List.length new = nrows df /\
    df' = {| index := index df; columns := update dst new (columns df) |}.
Proof.
  intros H.
  apply result_bind_Ok in H as [col [Hcol H]].
  apply result_bind_Ok in H as [new [Hnew H]].
  apply setitem_Ok in H as [Hlen ->].
  exists col, new. repeat split.
  - apply getitem_Ok. exact Hcol.
  - apply mapM_Forall2. exact Hnew.
  - exact Hlen.
Qed.

Lemma derived_column_total (df : DataFrame F) (src dst : string)
  (f : value F -> result (value F)) (P : value F -> Prop) :
  column_of P df src ->
  (forall x, P x -> exists v, f x = Ok v) ->
  exists new,
    (col <- getitem df src ;; new <- apply col f ;; setitem df dst new)
    = Ok {| index := index df; columns := update dst new (columns df) |}.
Proof.
  intros [col [Hcol [Hlen HP]]] Hf.
  destruct (mapM_total f col) as [new Hnew].
  { eapply Forall_impl; [| exact HP]. exact Hf. }
  exists new. apply getitem_Ok in Hcol. rewrite Hcol. cbn. unfold apply.
  rewrite Hnew. cbn. apply setitem_same_length.
  apply mapM_Forall2, Forall2_same_length in Hnew. congruence.
Qed.

(** Writing column [dst] leaves every other column as it is. *)
Lemma column_of_update (P : value F -> Prop) (df : DataFrame F) (src dst : string)
  (new : list (value F)) :
  String.eqb dst src = false ->
  column_of P df src ->
  column_of P {| index := index df; columns := update dst new (columns df) |} src.
Proof.
  intros Hne [col [Hcol [Hlen HP]]]. exists col. unfold column in *. cbn.
  rewrite lookup_update, Hne. repeat split; assumption.
Qed.

End Tables.

(** ** The refinement pipeline *)

(** Decides comparisons between column names that are literals. *)
Ltac decide_names :=
  repeat match goal with
  | |- context [String.eqb ?a ?b] =>
      let r := eval vm_compute in (String.eqb a b) in
      lazymatch r with
      | true => change (String.eqb a b) with true
      | false => change (String.eqb a b) with false
      end
  | |- context [mem ?a ?l] =>
      let r := eval vm_compute in (mem a l) in
      lazymatch r with
      | true => change (mem a l) with true
      | false => change (mem a l) with false
      end
  end.

Ltac column_facts :=
  unfold column; cbn [columns index]; unfold refined_columns, added_columns;
  repeat (rewrite lookup_update || rewrite lookup_filter);
  decide_names; cbn [negb].

Section Pipeline.
Context {F : Type} {N : Num F} {L : Libraries F}.

Lemma added_columns_other (name : string) (cols : list (string * list (value F)))
  (flags scores ratios polarities subjectivities : list (value F)) :
  mem name computed_columns = false ->
  lookup name (added_columns cols flags scores ratios polarities subjectivities)
  = lookup name cols.
Proof.
  intros H. unfold added_columns. rewrite !lookup_update.
  unfold mem, computed_columns in H. cbn [existsb] in H.
  repeat (apply Bool.orb_false_iff in H as [?E H]).
  rewrite (String.eqb_sym "article_subjectivity"), (String.eqb_sym "article_polarity"),
    (String.eqb_sym "percent_difficult_words"), (String.eqb_sym "flesch_reading_ease"),
    (String.eqb_sym "is_suspicious_country").
  rewrite E, E0, E1, E2, E3. reflexivity.
Qed.

Lemma zip_star_unpack (pairs : list (F * F)) (polarities subjectivities : list F) :
  unpack2 (zip_star pairs) = Ok (polarities, subjectivities) ->
  pairs <> [] /\ polarities = map fst pairs /\ subjectivities = map snd pairs.
Proof.
  destruct pairs as [| p rest]; cbn; intros H; [discriminate H |].
  injection H as <- <-. repeat split. discriminate.
Qed.

Lemma add_sentiment_columns_Ok (df df' : DataFrame F) :
  add_sentiment_columns df = Ok df' ->
  exists text pairs,
    column df "article_text" = Some text /\
    Forall2 (fun x pq => analyze_sentiment x = Ok pq) text pairs /\
    pairs <> [] /\
    List.length pairs = nrows df /\
    df' = {| index := index df;
             columns := update "article_subjectivity" (map VFloat (map snd pairs))
                          (update "article_polarity" (map VFloat (map fst pairs))
                             (columns df)) |}.
Proof.
  unfold add_sentiment_columns. intros H.
  apply result_bind_Ok in H as [text [Htext H]].
  apply result_bind_Ok in H as [pairs [Hpairs H]].
  apply result_bind_Ok in H as [[pol subj] [Hzip H]].
  apply result_bind_Ok in H as [df1 [H1 H]].
  apply zip_star_unpack in Hzip as [Hne [-> ->]].
  apply setitem_Ok in H1 as [Hlen ->].
  apply setitem_Ok in H as [_ ->].
  exists text, pairs. repeat split.
  - apply getitem_Ok. exact Htext.
  - apply mapM_Forall2. exact Hpairs.
  - exact Hne.
  - rewrite !length_map in Hlen. exact Hlen.
Qed.

Lemma add_features_Ok (df df' : DataFrame F) :
  add_features df = Ok df' ->
  exists country text flags scores ratios pairs,
    column df "country" = Some country /\
    column df "article_text" = Some text /\
    Forall2 (fun x v => suspicious_country_cell x = Ok v) country flags /\
    Forall2 (fun x v => flesch_cell x = Ok v) text scores /\
    Forall2 (fun x v => percent_difficult_words x = Ok v) text ratios /\
    Forall2 (fun x pq => analyze_sentiment x = Ok pq) text pairs /\
    List.length country = nrows df /\
    List.length text = nrows df /\
    nrows df <> 0 /\
    df' = {| index := index df;
             columns := added_columns (columns df) flags scores ratios
                          (map VFloat (map fst pairs)) (map VFloat (map snd pairs)) |}.
Proof.
  unfold add_features. intros H.
  apply result_bind_Ok in H as [df1 [H1 H]].
  apply result_bind_Ok in H as [df2 [H2 H]].
  apply result_bind_Ok in H as [df3 [H3 H]].
  apply result_bind_Ok in H as [df4 [H4 H]].
  injection H as <-.
  apply derived_column_Ok in H1 as [country [flags [Hc [Hflags [Lflags ->]]]]].
  apply derived_column_Ok in H2 as [text [scores [Ht [Hscores [_ ->]]]]].
  apply derived_column_Ok in H3 as [text' [ratios [Ht' [Hratios [_ ->]]]]].
  apply add_sentiment_columns_Ok in H4 as [text'' [pairs [Ht'' [Hp [Hne [Hlen ->]]]]]].
  revert Ht Ht' Ht'' Hlen. unfold nrows. column_facts. fold (nrows df).
  intros Ht Ht' Ht'' Hlen.
  rewrite Ht in Ht', Ht''. injection Ht' as <-. injection Ht'' as <-.
  pose proof (Forall2_same_length _ _ _ Hflags) as Lc.
  pose proof (Forall2_same_length _ _ _ Hp) as Lt.
  exists country, text, flags, scores, ratios, pairs.
  repeat split; try assumption; try congruence.
  intros Hz. destruct pairs; [contradiction |]. cbn in Hlen. congruence.
Qed.

Lemma dropped_not_computed (n : string) :
  In n dropped_columns -> mem n computed_columns = false.
Proof. cbn. intuition (subst; reflexivity). Qed.

Lemma has_column_added (i i' : list Z) (cols : list (string * list (value F)))
  (flags scores ratios polarities subjectivities : list (value F)) (n : string) :
  mem n computed_columns = false ->
  has_column {| index := i;
                columns := added_columns cols flags scores ratios
                             polarities subjectivities |} n
  = has_column {| index := i'; columns := cols |} n.
Proof.
  intros H. unfold has_column. cbn [columns].
  rewrite added_columns_other by exact H. reflexivity.
Qed.

Lemma add_features_intro (df : DataFrame F)
  (country text flags scores ratios : list (value F)) (pairs : list (F * F)) :
  column df "country" = Some country ->
  column df "article_text" = Some text ->
  List.length country = nrows df ->
  List.length text = nrows df ->
  nrows df <> 0 ->
  Forall2 (fun x v => suspicious_country_cell x = Ok v) country flags ->
  Forall2 (fun x v => flesch_cell x = Ok v) text scores ->
  Forall2 (fun x v => percent_difficult_words x = Ok v) text ratios ->
  Forall2 (fun x pq => analyze_sentiment x = Ok pq) text pairs ->
  add_features df
  = Ok {| index := index df;
          columns := added_columns (columns df) flags scores ratios
                       (map VFloat (map fst pairs)) (map VFloat (map snd pairs)) |}.
Proof.
  intros Hc Ht Lc Lt Hn Hflags Hscores Hratios Hpairs.
  pose proof (Forall2_same_length _ _ _ Hflags) as Lflags.
  pose proof (Forall2_same_length _ _ _ Hscores) as Lscores.
  pose proof (Forall2_same_length _ _ _ Hratios) as Lratios.
  pose proof (Forall2_same_length _ _ _ Hpairs) as Lpairs.
  apply Forall2_mapM in Hflags, Hscores, Hratios, Hpairs.
  unfold suspicious_country_cell in Hflags. unfold flesch_cell in Hscores.
  unfold add_features.
  unfold add_suspicious_country_column.
  rewrite (proj2 (getitem_Ok _ _ _) Hc). rewrite result_bind_ret; cbn beta iota.
  unfold apply at 1. rewrite Hflags. rewrite result_bind_ret; cbn beta iota.
  rewrite setitem_same_length by congruence. rewrite result_bind_ret; cbn beta iota.
  unfold add_flesch_reading_ease_column.
  rewrite (proj2 (getitem_Ok _ "article_text" text)) by (column_facts; exact Ht).
  rewrite result_bind_ret; cbn beta iota.
  unfold apply at 1. rewrite Hscores. rewrite result_bind_ret; cbn beta iota.
  rewrite setitem_same_length by (unfold nrows in *; cbn [index]; congruence).
  rewrite result_bind_ret; cbn beta iota.
  unfold add_percent_difficult_words_column.
  rewrite (proj2 (getitem_Ok _ "article_text" text)) by (column_facts; exact Ht).
  rewrite result_bind_ret; cbn beta iota.
  unfold apply at 1.
  rewrite (Hratios : mapM (fun x => percent_difficult_words x) text = Ok ratios). rewrite result_bind_ret; cbn beta iota.
  rewrite setitem_same_length by (unfold nrows in *; cbn [index]; congruence).
  rewrite result_bind_ret; cbn beta iota.
  unfold add_sentiment_columns.
  rewrite (proj2 (getitem_Ok _ "article_text" text)) by (column_facts; exact Ht).
  rewrite result_bind_ret; cbn beta iota.
  unfold apply at 1. rewrite Hpairs. rewrite result_bind_ret; cbn beta iota.
  destruct pairs as [| p rest].
  { cbn in Lpairs. congruence. }
  cbn [zip_star unpack2]. rewrite result_bind_ret; cbn beta iota.
  rewrite setitem_same_length
    by (unfold nrows in *; cbn [index]; rewrite !length_map; congruence).
  rewrite result_bind_ret; cbn beta iota.
  rewrite setitem_same_length
    by (unfold nrows in *; cbn [index]; rewrite !length_map; congruence).
  reflexivity.
Qed.

Lemma drop_features_Ok (df df' : DataFrame F) :
  drop_features df = Ok df' <->
  Forall (fun n => has_column df n = true) dropped_columns /\
  df' = {| index := map Z.of_nat (seq 0 (nrows df));
           columns := filter (fun c => negb (mem (fst c) dropped_columns)) (columns df) |}.
Proof.
  unfold drop_features. split.
  - intros H. apply result_bind_Ok in H as [d [Hd H]].
    apply drop_Ok in Hd as [Hall ->]. injection H as <-.
    split; [exact Hall | reflexivity].
  - intros [Hall ->].
    rewrite (proj2 (drop_Ok df _ dropped_columns) (conj Hall eq_refl)).
    reflexivity.
Qed.

Lemma scale_creation_dates_Ok (df df' : DataFrame F) (w w' : World F) :
  scale_creation_dates df w = (Ok df', w') <->
  exists dates scaled,
    column df "creation_date" = Some dates /\
    List.length dates = nrows df /\
    Forall2 (fun x v => scaled_cell (wall_clock (ticks w)) x = Ok v) dates scaled /\
    df' = {| index := index df; columns := update "creation_date" scaled (columns df) |} /\
    w' = {| ticks := S (ticks w); trace := trace w ++ [EvNow (wall_clock (ticks w))] |}.
Proof.
  unfold scale_creation_dates. rewrite M_bind_run.
  unfold datetime_now_timestamp at 1. cbn iota.
  set (now := wall_clock (ticks w)).
  set (w1 := {| ticks := S (ticks w); trace := trace w ++ [EvNow now] |}).
  split.
  - intros H.
    apply M_bind_Ok in H as [dates [w2 [Hd H]]]. apply lift_Ok in Hd as [Hd ->].
    apply M_bind_Ok in H as [scaled [w2 [Hs H]]]. apply lift_Ok in Hs as [Hs ->].
    apply lift_Ok in H as [H ->].
    apply setitem_Ok in H as [Hlen ->].
    apply mapM_Forall2 in Hs.
    exists dates, scaled. repeat split.
    + apply getitem_Ok. exact Hd.
    + apply Forall2_same_length in Hs. congruence.
    + exact Hs.
  - intros [dates [scaled [Hd [Hlen [Hs [-> ->]]]]]].
    rewrite lift_bind, (proj2 (getitem_Ok _ _ _) Hd).
    pose proof (Forall2_same_length _ _ _ Hs) as Ls.
    apply Forall2_mapM in Hs. unfold scaled_cell in Hs.
    rewrite lift_bind. unfold apply. fold now. rewrite Hs.
    unfold lift. rewrite setitem_same_length by congruence. reflexivity.
Qed.

Theorem refine_fake_news_data_refines (df df' : DataFrame F) (w w' : World F) :
  refine_fake_news_data df w = (Ok df', w') <-> refines df w df' w'.
Proof.
  unfold refine_fake_news_data, scale_features. split.
  - intros H.
    apply M_bind_Ok in H as [d1 [w1 [H1 H]]]. apply lift_Ok in H1 as [H1 ->].
    apply M_bind_Ok in H as [d2 [w1 [H2 H]]]. apply lift_Ok in H2 as [H2 ->].
    apply M_bind_Ok in H as [d3 [w1 [H3 H]]].
    apply M_bind_Ok in H3 as [d4 [w2 [H3 H4]]].
    injection H4 as <- <-. injection H as <- <-.
    apply add_features_Ok in H1
      as [country [text [flags [scores [ratios [pairs
           [Hc [Ht [Hflags [Hscores [Hratios [Hpairs [Lc [Lt [Hn ->]]]]]]]]]]]]]]].
    apply drop_features_Ok in H2 as [Hall ->].
    apply scale_creation_dates_Ok in H3 as [dates [scaled [Hd [Ld [Hs [-> ->]]]]]].
    revert Hd Ld. unfold nrows at 1 2. column_facts.
    rewrite length_map, length_seq. intros Hd Ld.
    apply (refines_intro df w country text dates flags scores ratios scaled pairs);
      try assumption.
    apply Forall_forall. intros n Hin.
    rewrite Forall_forall in Hall. rewrite <- (Hall n Hin).
    symmetry. destruct df as [i c]. apply has_column_added, dropped_not_computed, Hin.
  - intros H. destruct H as [country text dates flags scores ratios scaled pairs
                             Hc Ht Hd Hall Lc Lt Ld Hn Hflags Hscores Hratios Hpairs Hs].
    set (d1 := {| index := index df;
                  columns := added_columns (columns df) flags scores ratios
                               (map VFloat (map fst pairs))
                               (map VFloat (map snd pairs)) |}).
    assert (add_features df = Ok d1) as H1
      by (apply add_features_intro with (country := country) (text := text);
          assumption).
    set (d2 := {| index := map Z.of_nat (seq 0 (nrows d1));
                  columns := filter (fun c => negb (mem (fst c) dropped_columns))
                               (columns d1) |}).
    assert (drop_features d1 = Ok d2) as H2.
    { apply drop_features_Ok. split; [| reflexivity].
      apply Forall_forall. intros n Hin.
      rewrite Forall_forall in Hall. rewrite <- (Hall n Hin).
      destruct df as [i c]. apply has_column_added, dropped_not_computed, Hin. }
    assert (scale_creation_dates d2 w
            = (Ok {| index := index d2;
                     columns := update "creation_date" scaled (columns d2) |},
               {| ticks := S (ticks w);
                  trace := trace w ++ [EvNow (wall_clock (ticks w))] |})) as H3.
    { apply scale_creation_dates_Ok. exists dates, scaled.
      split; [subst d2 d1; column_facts; exact Hd |].
      split; [| split; [exact Hs | split; reflexivity]].
      subst d2 d1. unfold nrows at 1. cbn [index].
      rewrite length_map, length_seq. exact Ld. }
    rewrite lift_bind, H1, lift_bind, H2, !M_bind_run, H3. reflexivity.
Qed.

Lemma Forall_exists_Forall2 {A B : Type} (R : A -> B -> Prop) (l : list A) :
  Forall (fun a => exists b, R a b) l -> exists l', Forall2 R l l'.
Proof.
  induction 1 as [| a t [b Hb] _ [bs IH]].
  - exists []. constructor.
  - exists (b :: bs). constructor; assumption.
Qed.

Lemma text_cells_computed (P : value F -> Prop) (col : list (value F)) :
  (forall s, P (VStr s)) -> Forall is_text col -> Forall P col.
Proof.
  intros HP H. eapply Forall_impl; [| exact H].
  intros [s | z | x |] Hx; cbn in Hx; try contradiction. apply HP.
Qed.

Lemma scaled_cell_number (now_timestamp : F) (x : value F) :
  num_is_zero now_timestamp = false -> is_number x ->
  exists v, scaled_cell now_timestamp x = Ok v.
Proof.
  intros Hz Hx. unfold scaled_cell, truediv_float.
  destruct x; cbn in Hx; try contradiction; rewrite Hz; eexists; reflexivity.
Qed.

(** The pipeline returns on a table that is not empty, has the columns it
    reads with text in [country] and [article_text] and numbers in
    [creation_date], when the clock does not read zero. *)
Lemma refine_fake_news_data_returns (df : DataFrame F) (w : World F) :
  Forall (fun n => has_column df n = true) required_columns ->
  column_of is_text df "country" ->
  column_of is_text df "article_text" ->
  column_of is_number df "creation_date" ->
  nrows df <> 0 ->
  num_is_zero (wall_clock (ticks w)) = false ->
  exists df' w', refine_fake_news_data df w = (Ok df', w').
Proof.
  intros Hreq [country [Hc [Lc Tc]]] [text [Ht [Lt Tt]]] [dates [Hd [Ld Nd]]] Hn Hz.
  destruct (Forall_exists_Forall2 (fun x v => suspicious_country_cell x = Ok v) country)
    as [flags Hflags].
  { apply text_cells_computed; [| exact Tc]. intros s. unfold suspicious_country_cell.
    destruct (is_suspicious_country_text (F:=F) s) as [z Hzs]. rewrite Hzs.
    eexists; reflexivity. }
  destruct (Forall_exists_Forall2 (fun x v => flesch_cell x = Ok v) text)
    as [scores Hscores].
  { apply text_cells_computed; [| exact Tt]. intros s. eexists; reflexivity. }
  destruct (Forall_exists_Forall2 (fun x v => percent_difficult_words x = Ok v) text)
    as [ratios Hratios].
  { apply text_cells_computed; [| exact Tt]. intros s.
    rewrite percent_difficult_words_text.
    destruct (lexicon_count s =? 0)%Z; eexists; reflexivity. }
  destruct (Forall_exists_Forall2 (fun x pq => analyze_sentiment x = Ok pq) text)
    as [pairs Hpairs].
  { apply text_cells_computed; [| exact Tt]. intros s. eexists; reflexivity. }
  destruct (Forall_exists_Forall2
              (fun x v => scaled_cell (wall_clock (ticks w)) x = Ok v) dates)
    as [scaled Hscaled].
  { eapply Forall_impl; [| exact Nd]. intros x. apply scaled_cell_number, Hz. }
  eexists. eexists. apply refine_fake_news_data_refines.
  apply (refines_intro df w country text dates flags scores ratios scaled pairs);
    try assumption.
  rewrite Forall_forall in Hreq |- *. intros n Hin. apply Hreq.
  cbn in Hin |- *. tauto.
Qed.

Lemma sentiment_cells (text : list (value F)) (pairs : list (F * F)) :
  Forall2 (fun x pq => analyze_sentiment x = Ok pq) text pairs ->
  Forall2 (fun x v => polarity_cell x = Ok v) text (map VFloat (map fst pairs)) /\
  Forall2 (fun x v => subjectivity_cell x = Ok v) text (map VFloat (map snd pairs)).
Proof.
  induction 1 as [| x pq t ps Hx _ [IHp IHs]]; cbn [map].
  - split; constructor.
  - split; constructor; try assumption.
    + unfold polarity_cell. rewrite Hx. reflexivity.
    + unfold subjectivity_cell. rewrite Hx. reflexivity.
Qed.

Lemma refined_columns_other (name : string) (cols : list (string * list (value F)))
  (flags scores ratios polarities subjectivities scaled : list (value F)) :
  mem name dropped_columns = false ->
  mem name computed_columns = false ->
  lookup name (refined_columns cols flags scores ratios polarities subjectivities scaled)
  = lookup name cols.
Proof.
  intros Hd Hc. unfold refined_columns.
  rewrite lookup_update, lookup_filter, Hd, added_columns_other by exact Hc.
  destruct (String.eqb "creation_date" name) eqn:E; [| reflexivity].
  apply String.eqb_eq in E. subst name. discriminate Hc.
Qed.

(** C2. For every input table, a run of [refine_fake_news_data] that returns
    a table returns one with the same number of rows in the same order: the
    rows are relabelled by position; every column that is neither dropped
    nor computed is carried over as it was; each computed column is its
    source column transformed row by row. Only the set of columns and the
    cells of the computed columns differ. The run does return on a non-empty
    table that has the columns read, with text and numbers where the
    feature functions need them. *)
Theorem refine_fake_news_data_keeps_rows (df : DataFrame F) (w : World F) :
  (forall df' w',
     refine_fake_news_data df w = (Ok df', w') ->
     nrows df' = nrows df /\
     index df' = map Z.of_nat (seq 0 (nrows df)) /\
     (forall name,
        mem name dropped_columns = false -> mem name computed_columns = false ->
        column df' name = column df name) /\
     row_by_row suspicious_country_cell
       (column df "country") (column df' "is_suspicious_country") /\
     row_by_row flesch_cell
       (column df "article_text") (column df' "flesch_reading_ease") /\
     row_by_row percent_difficult_words
       (column df "article_text") (column df' "percent_difficult_words") /\
     row_by_row polarity_cell
       (column df "article_text") (column df' "article_polarity") /\
     row_by_row subjectivity_cell
       (column df "article_text") (column df' "article_subjectivity") /\
     row_by_row (scaled_cell (wall_clock (ticks w)))
       (column df "creation_date") (column df' "creation_date")) /\
  (Forall (fun n => has_column df n = true) required_columns ->
   column_of is_text df "country" ->
   column_of is_text df "article_text" ->
   column_of is_number df "creation_date" ->
   nrows df <> 0 ->
   num_is_zero (wall_clock (ticks w)) = false ->
   exists df' w', refine_fake_news_data df w = (Ok df', w')).
Proof.
  split; [| apply refine_fake_news_data_returns].
  intros df' w' H. apply refine_fake_news_data_refines in H.
  destruct H as [country text dates flags scores ratios scaled pairs
                 Hc Ht Hd Hall Lc Lt Ld Hn Hflags Hscores Hratios Hpairs Hs].
  apply sentiment_cells in Hpairs as [Hpol Hsub].
  split; [unfold nrows; cbn [index]; rewrite length_map, length_seq; reflexivity |].
  split; [reflexivity |].
  split; [intros name Hdrop Hcomp; unfold column; cbn [columns];
          apply refined_columns_other; assumption |].
  unfold row_by_row.
  repeat split.
  - exists country, flags. repeat split; try assumption. column_facts. reflexivity.
  - exists text, scores. repeat split; try assumption. column_facts. reflexivity.
  - exists text, ratios. repeat split; try assumption. column_facts. reflexivity.
  - eexists text, _. repeat split; [exact Ht | column_facts; reflexivity | exact Hpol].
  - eexists text, _. repeat split; [exact Ht | column_facts; reflexivity | exact Hsub].
  - exists dates, scaled. repeat split; try assumption. column_facts. reflexivity.
Qed.


End Pipeline.

(** ** Numeric properties, over exact arithmetic *)

Section Exact.
Context {L : Libraries Q}.
Local Open Scope Q_scope.








End Exact.

(** ** Loading, evaluating, training *)

Section Outside.
Context {F : Type} {N : Num F} {L : Libraries F}.

Lemma load_fake_news_data_run (file_name : string) (w : World F) :
  load_fake_news_data file_name w
  = (json_data <- requests_get_text (base_url ++ file_name)%string ;;
     fake_news_data <- pd_read_json json_data ;;
     fake_news_features <- drop fake_news_data ["is_fake"] ;;
     fake_news_labels <- getitem fake_news_data "is_fake" ;;
     Ok (fake_news_features, fake_news_labels),
     emit (EvRequest (base_url ++ file_name)%string) w).
Proof.
  unfold load_fake_news_data. rewrite M_bind_run. unfold requests_get at 1.
  destruct (requests_get_text (base_url ++ file_name)%string) as [text | e];
    [| reflexivity].
  rewrite lift_bind, result_bind_ret.
  destruct (pd_read_json text) as [df | e]; [| reflexivity].
  rewrite lift_bind, result_bind_ret.
  destruct (drop df ["is_fake"]) as [features | e]; [| reflexivity].
  rewrite lift_bind, result_bind_ret.
  destruct (getitem df "is_fake") as [labels | e]; reflexivity.
Qed.

(** C5. [load_fake_news_data] sends one request. When the response parses
    into a table that has a column [is_fake], it returns the table without
    that column (its other columns and its rows as they were) together with
    that column. When the request raises, when the response does not parse,
    or when the table has no column [is_fake], the call raises, with the
    error of the failing step; no second request is sent and no other value
    is returned in its place. *)
Theorem load_fake_news_data_outcomes (file_name : string) (w : World F) :
  let url := (base_url ++ file_name)%string in
  let outcome := load_fake_news_data file_name w in
  ticks (snd outcome) = ticks w /\
  trace (snd outcome) = trace w ++ [EvRequest url] /\
  (forall e, requests_get_text url = Raise e -> fst outcome = Raise e) /\
  (forall text e,
     requests_get_text url = Ok text -> pd_read_json text = Raise e ->
     fst outcome = Raise e) /\
  (forall text df,
     requests_get_text url = Ok text -> pd_read_json text = Ok df ->
     has_column df "is_fake" = false ->
     fst outcome = Raise (KeyError ["is_fake"])) /\
  (forall text df labels,
     requests_get_text url = Ok text -> pd_read_json text = Ok df ->
     column df "is_fake" = Some labels ->
     exists features,
       fst outcome = Ok (features, labels) /\
       has_column features "is_fake" = false /\
       index features = index df /\
       (forall name, String.eqb name "is_fake" = false ->
                     column features name = column df name)).
Proof.
  cbn zeta. rewrite load_fake_news_data_run. cbn [fst snd].
  split; [reflexivity |]. split; [reflexivity |].
  split; [intros e -> ; reflexivity |].
  split; [intros text e -> ; rewrite result_bind_ret; intros ->; reflexivity |].
  split.
  - intros text df -> . rewrite result_bind_ret. intros -> Hno.
    rewrite result_bind_ret, drop_missing by exact Hno. reflexivity.
  - intros text df labels -> . rewrite result_bind_ret. intros -> Hcol.
    rewrite result_bind_ret.
    assert (Forall (fun n => has_column df n = true) ["is_fake"]) as Hall.
    { constructor; [| constructor]. apply has_column_column. exists labels. exact Hcol. }
    rewrite (proj2 (drop_Ok df _ ["is_fake"]) (conj Hall eq_refl)).
    rewrite result_bind_ret, (proj2 (getitem_Ok _ _ _) Hcol), result_bind_ret.
    eexists. split; [reflexivity |].
    split; [unfold has_column; cbn [columns]; rewrite lookup_filter; reflexivity |].
    split; [reflexivity |].
    intros name Hname. unfold column. cbn [columns]. rewrite lookup_filter.
    unfold mem. cbn [existsb]. rewrite Hname. reflexivity.
Qed.

Lemma evaluation_loop_returns (X : DataFrame F) (y : list (value F))
  (entries : list (string * classifier)) (scores : list (list F)) (w : World F) :
  all_scored X y entries scores ->
  evaluation_loop X y entries w
  = (Ok tt, {| ticks := ticks w; trace := trace w ++ events_of X y entries scores |}).
Proof.
  intros H. revert w. induction H as [| entry cv_results entries scores He _ IH];
    intros w.
  - cbn. rewrite app_nil_r. destruct w; reflexivity.
  - unfold evaluation_loop. cbn [for_each]. rewrite M_bind_run.
    rewrite M_bind_run. unfold model_selection_cross_val_score at 1.
    rewrite He. unfold print at 1.
    fold (evaluation_loop X y entries). rewrite IH.
    unfold emit. cbn [ticks trace events_of evaluation_events].
    rewrite <- !app_assoc. reflexivity.
Qed.







(** C9, amended. [train_neural_network] makes one call of [fit], on all rows
    of the training table and the whole label vector, with 400 epochs and
    every other argument at its default: no batch size (Keras then takes 32
    samples per gradient update, so an epoch over n rows makes
    ceil(n / 32) updates), no callback (nothing stops training early), no
    validation split and no validation data. What the call returns or
    raises is what the function returns or raises. *)
Theorem train_neural_network_fit_call (model : network F) (X : DataFrame F)
  (y : list (value F)) (w : World F) :
  exists args,
    train_neural_network model X y w = (keras_fit model args, emit (EvFit args) w) /\
    fitted (trace (snd (train_neural_network model X y w))) = fitted (trace w) ++ [args] /\
    fit_x args = values X /\
    List.length (fit_x args) = nrows X /\
    fit_y args = y /\
    epochs args = 400 /\
    batch_size args = None /\
    samples_per_update args = 32 /\
    updates_per_epoch args = (nrows X + 31) / 32 /\
    callbacks args = [] /\
    validation_split_percent args = 0 /\
    validation_data args = None.
Proof.
  exists (fit_epochs (values X) y 400).
  assert (List.length (values X) = nrows X) as Hlen
    by (unfold values; rewrite length_map, length_seq; reflexivity).
  split; [reflexivity |].
  split; [unfold train_neural_network, model_fit, emit, fitted; cbn [snd trace];
          rewrite flat_map_app; reflexivity |].
  split; [reflexivity |]. split; [exact Hlen |].
  do 4 (split; [reflexivity |]).
  split; [unfold updates_per_epoch; cbn [fit_x fit_epochs samples_per_update batch_size];
          rewrite Hlen; f_equal; lia |].
  repeat split.
Qed.

(** Nothing in [main] catches what the loader raises: the run ends there,
    before any table is refined or any model is fitted. *)
Lemma main_stops_when_loading_fails (w : World F) (e : exn) :
  fst (load_fake_news_training_data w) = Raise e ->
  main w = (Raise e, snd (load_fake_news_training_data w)).
Proof.
  intros H. unfold main. rewrite M_bind_run.
  destruct (load_fake_news_training_data w) as [[r | e'] w1]; cbn [fst snd] in *.
  - discriminate H.
  - injection H as ->. reflexivity.
Qed.

End Outside.

(** ** Runs on the sample data *)

Example is_suspicious_country_MK :
  is_suspicious_country (F:=Q) (VStr "MK") = Ok 1%Z.
Proof. reflexivity. Qed.

Example is_suspicious_country_redacted :
  is_suspicious_country (F:=Q) (VStr "REDACTED FOR PRIVACY") = Ok 1%Z.
Proof. reflexivity. Qed.

Example is_suspicious_country_US :
  is_suspicious_country (F:=Q) (VStr "US") = Ok 0%Z.
Proof. reflexivity. Qed.

Example is_suspicious_country_lower_case :
  is_suspicious_country (F:=Q) (VStr "mk") = Ok 0%Z.
Proof. reflexivity. Qed.

Example is_suspicious_country_missing :
  is_suspicious_country (F:=Q) VNone = Raise TypeError.
Proof. reflexivity. Qed.

Example percent_difficult_words_empty_text :
  percent_difficult_words (L:=Sample.libraries) (VStr "") = Ok (VInt 0).
Proof. reflexivity. Qed.

Example percent_difficult_words_sample_text :
  percent_difficult_words (L:=Sample.libraries) (VStr "The council met on Monday.")
  = Ok (VFloat (2 / 5)%Q).
Proof. reflexivity. Qed.

(** The pipeline on the two sample articles. *)
Example refine_fake_news_data_sample :
  refine_fake_news_data (L:=Sample.libraries) Sample.articles Sample.world
  = (Ok {| index := [0; 1]%Z;
           columns :=
             [ ("creation_date",
                [VFloat (1000000000 / 1700000000)%Q; VFloat (1500000000 / 1700000000)%Q]);
               ("share_count", [VInt 12; VInt 0]);
               ("is_suspicious_country", [VInt 0; VInt 1]);
               ("flesch_reading_ease", [VFloat 26%Q; VFloat 0%Q]);
               ("percent_difficult_words", [VFloat (2 / 5)%Q; VInt 0]);
               ("article_polarity", [VFloat ((- (1 # 4) + 1) / 2)%Q; VFloat ((0 + 1) / 2)%Q]);
               ("article_subjectivity", [VFloat (((1 # 2) + 1) / 2)%Q; VFloat ((0 + 1) / 2)%Q]) ] |},
     {| ticks := 1; trace := [EvNow 1700000000%Q] |}).
Proof. reflexivity. Qed.

(** On a table without rows the unpacking of [zip( *pairs )] in
    [add_sentiment_columns] finds nothing to unpack. *)
Example refine_fake_news_data_no_rows :
  refine_fake_news_data (L:=Sample.libraries) Sample.no_articles Sample.world
  = (Raise ValueError, Sample.world).
Proof. reflexivity. Qed.






(** C9 as stated fails: on a training table of 33 rows the call of [fit]
    cuts each epoch into two gradient updates, of 32 rows and of 1 row. *)
Lemma train_neural_network_not_full_batch :
  exists args,
    fitted (trace (snd (train_neural_network (L:=Sample.libraries)
                          (create_neural_network (L:=Sample.libraries))
                          Sample.training_features Sample.training_labels
                          Sample.world)))
    = [args] /\
    List.length (fit_x args) = 33 /\
    samples_per_update args = 32 /\
    updates_per_epoch args = 2 /\
    ~ full_batch args.
Proof.
  eexists. split; [reflexivity |].
  split; [reflexivity |]. split; [reflexivity |]. split; [reflexivity |].
  unfold full_batch. cbn. lia.
Qed.

(* ================================================================== *)
(** * Part III: further properties of the notebook's functions *)
(* ================================================================== *)

Section Further.
Context {F : Type} {N : Num F} {L : Libraries F}.

Lemma is_suspicious_country_not_text (v : value F) :
  ~ is_text v -> is_suspicious_country v = Raise TypeError.
Proof. destruct v; cbn [is_text]; try tauto; intros _; reflexivity. Qed.

Lemma is_suspicious_country_text_flag (s : string) :
  is_suspicious_country (F:=F) (VStr s) = Ok 0%Z \/
  is_suspicious_country (F:=F) (VStr s) = Ok 1%Z.
Proof.
  unfold is_suspicious_country.
  destruct (in_list (VStr s) sus_countries); [right; reflexivity |].
  cbn. destruct (contains "REDACTED" s); [right | left]; reflexivity.
Qed.

(** X1. [is_suspicious_country] returns 0 or 1 on every string and raises
    [TypeError] on every value that is not a string (a number, a missing
    value): the substring test cannot be made on it. *)
Theorem is_suspicious_country_binary (country : value F) :
  (is_text country ->
   is_suspicious_country country = Ok 0%Z \/ is_suspicious_country country = Ok 1%Z) /\
  (~ is_text country -> is_suspicious_country country = Raise TypeError).
Proof.
  split; [| apply is_suspicious_country_not_text].
  destruct country as [s | z | x |]; cbn [is_text]; try tauto.
  intros _. apply is_suspicious_country_text_flag.
Qed.

Lemma suspicious_country_cell_flag (x v : value F) :
  suspicious_country_cell x = Ok v -> v = VInt 0 \/ v = VInt 1.
Proof.
  unfold suspicious_country_cell. intros H.
  apply result_bind_Ok in H as [z [Hz H]]. injection H as <-.
  destruct x as [s | z' | x' |]; try discriminate Hz.
  destruct (is_suspicious_country_text_flag s) as [H0 | H1]; [left | right]; congruence.
Qed.

(** X2. [add_suspicious_country_column] raises [KeyError] for "country" on a
    table without that column. When it returns, the table has the same row
    labels, every column other than [is_suspicious_country] is as it was,
    and [is_suspicious_country] holds one flag per row, each 0 or 1. *)
Theorem add_suspicious_country_column_effect (df : DataFrame F) :
  (column df "country" = None ->
   add_suspicious_country_column df = Raise (KeyError ["country"])) /\
  (forall df',
     add_suspicious_country_column df = Ok df' ->
     index df' = index df /\
     (forall name, String.eqb "is_suspicious_country" name = false ->
                   column df' name = column df name) /\
     exists flags,
       column df' "is_suspicious_country" = Some flags /\
       List.length flags = nrows df /\
       Forall (fun v => v = VInt 0 \/ v = VInt 1) flags).
Proof.
  split.
  - intros H. unfold add_suspicious_country_column.
    rewrite (getitem_missing _ _ H). reflexivity.
  - intros df' H. unfold add_suspicious_country_column in H.
    apply derived_column_Ok in H as [country [flags [Hc [Hflags [Hlen ->]]]]].
    split; [reflexivity |]. split.
    + intros name Hname. unfold column. cbn [columns].
      rewrite lookup_update, Hname. reflexivity.
    + exists flags. split; [column_facts; reflexivity |]. split; [exact Hlen |].
      clear Hlen Hc. induction Hflags as [| x v t vs Hx _ IH]; constructor.
      * apply (suspicious_country_cell_flag x v Hx).
      * exact IH.
Qed.

Lemma derived_column_no_rows (df : DataFrame F) (src dst : string)
  (f : value F -> result (value F)) :
  nrows df = 0 -> column df src = Some [] ->
  (col <- getitem df src ;; new <- apply col f ;; setitem df dst new)
  = Ok {| index := index df; columns := update dst [] (columns df) |}.
Proof.
  intros Hn Hc. rewrite (proj2 (getitem_Ok _ _ _) Hc), result_bind_ret.
  unfold apply. cbn [mapM]. rewrite result_bind_ret.
  apply setitem_same_length. rewrite Hn. reflexivity.
Qed.

(** X3. On a table without rows the three column functions that use
    [apply] return (with an empty new column), but [add_sentiment_columns]
    raises [ValueError]: unpacking [zip( *pairs )] into two names finds no
    item. So does [add_features], and [refine_fake_news_data] raises it
    before the clock is read. *)
Theorem no_rows_no_sentiment (df : DataFrame F) (w : World F) :
  nrows df = 0 ->
  column df "country" = Some [] ->
  column df "article_text" = Some [] ->
  add_suspicious_country_column df
  = Ok {| index := index df;
          columns := update "is_suspicious_country" [] (columns df) |} /\
  add_flesch_reading_ease_column df
  = Ok {| index := index df;
          columns := update "flesch_reading_ease" [] (columns df) |} /\
  add_percent_difficult_words_column df
  = Ok {| index := index df;
          columns := update "percent_difficult_words" [] (columns df) |} /\
  add_sentiment_columns df = Raise ValueError /\
  add_features df = Raise ValueError /\
  refine_fake_news_data df w = (Raise ValueError, w).
Proof.
  intros Hn Hc Ht.
  assert (add_sentiment_columns df = Raise ValueError) as Hs.
  { unfold add_sentiment_columns.
    rewrite (proj2 (getitem_Ok _ _ _) Ht), result_bind_ret. reflexivity. }
  assert (add_features df = Raise ValueError) as Ha.
  { unfold add_features.
    unfold add_suspicious_country_column.
    rewrite (derived_column_no_rows df _ _ _ Hn Hc), result_bind_ret.
    unfold add_flesch_reading_ease_column.
    rewrite derived_column_no_rows, result_bind_ret
      by (try exact Hn; column_facts; exact Ht).
    unfold add_percent_difficult_words_column.
    rewrite derived_column_no_rows, result_bind_ret
      by (try exact Hn; column_facts; exact Ht).
    unfold add_sentiment_columns.
    rewrite (proj2 (getitem_Ok _ "article_text" [])), result_bind_ret
      by (column_facts; exact Ht).
    reflexivity. }
  split; [apply derived_column_no_rows; assumption |].
  split; [apply derived_column_no_rows; assumption |].
  split; [apply derived_column_no_rows; assumption |].
  split; [exact Hs |]. split; [exact Ha |].
  unfold refine_fake_news_data. rewrite lift_bind, Ha. reflexivity.
Qed.

(** X4. The pipeline cannot be run on its own output: a table it returned no
    longer has the column [country], so a second run raises [KeyError] for
    "country", at once and without reading the clock. *)
Theorem refine_fake_news_data_not_repeatable (df df' : DataFrame F) (w w' v : World F) :
  refine_fake_news_data df w = (Ok df', w') ->
  refine_fake_news_data df' v = (Raise (KeyError ["country"]), v).
Proof.
  intros H. apply refine_fake_news_data_refines in H.
  destruct H as [country text dates flags scores ratios scaled pairs
                 Hc Ht Hd Hall Lc Lt Ld Hn Hflags Hscores Hratios Hpairs Hs].
  unfold refine_fake_news_data. rewrite lift_bind.
  unfold add_features, add_suspicious_country_column.
  rewrite getitem_missing by (column_facts; reflexivity).
  reflexivity.
Qed.

Lemma update_same {A : Type} (n : string) (v : A) (cols : list (string * A)) :
  lookup n cols = Some v -> update n v cols = cols.
Proof.
  unfold lookup. induction cols as [| [k x] rest IH]; cbn [find update fst snd].
  - discriminate.
  - destruct (String.eqb k n) eqn:E.
    + apply String.eqb_eq in E. subst k. intros H. injection H as ->. reflexivity.
    + intros H. rewrite (IH H). reflexivity.
Qed.

(** X5. Adding the features twice is the same as adding them once:
    [add_features] on a table it returned returns that table again. *)
Theorem add_features_idempotent (df df' : DataFrame F) :
  add_features df = Ok df' -> add_features df' = Ok df'.
Proof.
  intros H. apply add_features_Ok in H
    as [country [text [flags [scores [ratios [pairs
         [Hc [Ht [Hflags [Hscores [Hratios [Hpairs [Lc [Lt [Hn ->]]]]]]]]]]]]]]].
  rewrite (add_features_intro _ country text flags scores ratios pairs);
    try assumption; try (column_facts; assumption).
  f_equal. cbn [index columns]. f_equal.
  unfold added_columns at 1.
  repeat (rewrite update_same; [| column_facts; reflexivity]).
  reflexivity.
Qed.

Lemma update_absent {A : Type} (n : string) (v : A) (cols : list (string * A)) :
  lookup n cols = None -> update n v cols = cols ++ [(n, v)].
Proof.
  unfold lookup. induction cols as [| [k x] rest IH]; cbn [find update fst snd app].
  - reflexivity.
  - destruct (String.eqb k n); [discriminate |].
    intros H. rewrite (IH H). reflexivity.
Qed.

Lemma lookup_app_absent {A : Type} (n m : string) (v : A) (cols : list (string * A)) :
  lookup n cols = None -> String.eqb m n = false -> lookup n (cols ++ [(m, v)]) = None.
Proof.
  unfold lookup. induction cols as [| [k x] rest IH]; cbn [find fst snd app].
  - intros _ ->. reflexivity.
  - destruct (String.eqb k n); [discriminate |]. exact IH.
Qed.

Lemma names_update_present {A : Type} (n : string) (v x : A) (cols : list (string * A)) :
  lookup n cols = Some x -> map fst (update n v cols) = map fst cols.
Proof.
  unfold lookup. induction cols as [| [k y] rest IH]; cbn [find update fst snd map].
  - discriminate.
  - destruct (String.eqb k n) eqn:E.
    + apply String.eqb_eq in E. subst k. reflexivity.
    + intros H. cbn [map fst]. rewrite (IH H). reflexivity.
Qed.

Lemma names_filter {A : Type} (names : list string) (cols : list (string * A)) :
  map fst (filter (fun c => negb (mem (fst c) names)) cols)
  = filter (fun n => negb (mem n names)) (map fst cols).
Proof.
  induction cols as [| [k x] rest IH]; cbn [filter map fst]; [reflexivity |].
  destruct (mem k names); cbn [negb map fst]; rewrite IH; reflexivity.
Qed.

Lemma has_column_false (df : DataFrame F) (name : string) :
  has_column df name = false -> lookup name (columns df) = None.
Proof. unfold has_column. destruct (lookup name (columns df)); [discriminate | reflexivity]. Qed.

(** X6. On a table that has none of the five feature columns yet, the
    pipeline returns the columns in this order: the original columns that
    are not dropped, in their original order (with [creation_date] in its
    old place), followed by [is_suspicious_country], [flesch_reading_ease],
    [percent_difficult_words], [article_polarity], [article_subjectivity]. *)
Theorem refine_fake_news_data_column_order (df df' : DataFrame F) (w w' : World F) :
  Forall (fun n => has_column df n = false) added_feature_columns ->
  refine_fake_news_data df w = (Ok df', w') ->
  map fst (columns df')
  = filter (fun n => negb (mem n dropped_columns)) (map fst (columns df))
    ++ added_feature_columns.
Proof.
  intros Hnew H. apply refine_fake_news_data_refines in H.
  destruct H as [country text dates flags scores ratios scaled pairs
                 Hc Ht Hd Hall Lc Lt Ld Hn Hflags Hscores Hratios Hpairs Hs].
  cbn [columns]. unfold added_feature_columns in Hnew.
  inversion Hnew as [| n1 l1 H1 Hnew1]; subst.
  inversion Hnew1 as [| n2 l2 H2 Hnew2]; subst.
  inversion Hnew2 as [| n3 l3 H3 Hnew3]; subst.
  inversion Hnew3 as [| n4 l4 H4 Hnew4]; subst.
  inversion Hnew4 as [| n5 l5 H5 _]; subst.
  apply has_column_false in H1, H2, H3, H4, H5.
  assert (added_columns (columns df) flags scores ratios
            (map VFloat (map fst pairs)) (map VFloat (map snd pairs))
          = columns df
            ++ [ ("is_suspicious_country", flags); ("flesch_reading_ease", scores);
                 ("percent_difficult_words", ratios);
                 ("article_polarity", map VFloat (map fst pairs));
                 ("article_subjectivity", map VFloat (map snd pairs)) ]) as Hadded.
  { unfold added_columns.
    rewrite (update_absent "is_suspicious_country") by exact H1.
    rewrite (update_absent "flesch_reading_ease")
      by (apply lookup_app_absent; [exact H2 | reflexivity]).
    rewrite (update_absent "percent_difficult_words")
      by (repeat (apply lookup_app_absent; [| reflexivity]); exact H3).
    rewrite (update_absent "article_polarity")
      by (repeat (apply lookup_app_absent; [| reflexivity]); exact H4).
    rewrite (update_absent "article_subjectivity")
      by (repeat (apply lookup_app_absent; [| reflexivity]); exact H5).
    rewrite <- !app_assoc. reflexivity. }
  unfold refined_columns. rewrite Hadded.
  rewrite (names_update_present "creation_date" scaled dates).
  - rewrite names_filter, map_app, filter_app. reflexivity.
  - rewrite <- Hadded. column_facts. exact Hd.
Qed.

Lemma scale_creation_dates_world (df : DataFrame F) (w : World F) :
  snd (scale_creation_dates df w) = ticked w.
Proof.
  unfold scale_creation_dates. rewrite M_bind_run.
  unfold datetime_now_timestamp at 1. cbn iota. fold (ticked w).
  rewrite lift_bind. destruct (getitem df "creation_date") as [dates | e]; [| reflexivity].
  rewrite lift_bind.
  destruct (apply dates (fun x => truediv_float x (wall_clock (ticks w)))) as [scaled | e];
    [| reflexivity].
  reflexivity.
Qed.

Lemma scale_creation_dates_missing (df : DataFrame F) (w : World F) :
  column df "creation_date" = None ->
  scale_creation_dates df w = (Raise (KeyError ["creation_date"]), ticked w).
Proof.
  intros H. unfold scale_creation_dates. rewrite M_bind_run.
  unfold datetime_now_timestamp at 1. cbn iota. fold (ticked w).
  rewrite lift_bind, (getitem_missing _ _ H). reflexivity.
Qed.

Lemma refine_fake_news_data_returned (df df' : DataFrame F) (w : World F) :
  fst (refine_fake_news_data df w) = Ok df' ->
  refine_fake_news_data df w = (Ok df', ticked w).
Proof.
  destruct (refine_fake_news_data df w) as [r w'] eqn:E. cbn [fst]. intros ->.
  apply refine_fake_news_data_refines in E. destruct E. reflexivity.
Qed.

(** X7. Whatever its outcome, [refine_fake_news_data] sends no request,
    prints nothing and fits nothing: it leaves the world as it was when it
    raises before the scaling step, and otherwise adds one reading of the
    clock and nothing else. A run that returns a table has read the clock
    exactly once. *)
Theorem refine_fake_news_data_world (df : DataFrame F) (w : World F) :
  (snd (refine_fake_news_data df w) = w \/
   snd (refine_fake_news_data df w) = ticked w) /\
  (forall df', fst (refine_fake_news_data df w) = Ok df' ->
               snd (refine_fake_news_data df w) = ticked w).
Proof.
  unfold refine_fake_news_data. rewrite lift_bind.
  destruct (add_features df) as [d1 | e]; [| split; [left; reflexivity | discriminate]].
  rewrite lift_bind.
  destruct (drop_features d1) as [d2 | e]; [| split; [left; reflexivity | discriminate]].
  rewrite M_bind_run. unfold scale_features. rewrite M_bind_run.
  pose proof (scale_creation_dates_world d2 w) as Hw.
  destruct (scale_creation_dates d2 w) as [[d3 | e] w3]; cbn [fst snd] in *; subst w3;
    (split; [right; reflexivity | intros; reflexivity]).
Qed.

(** X8. [scale_creation_dates] reads the clock before it looks for the
    column: on a table without [creation_date] it raises [KeyError] for
    "creation_date" with the reading already made, and every outcome leaves
    exactly one reading behind. When it returns, the row labels, the names
    and order of the columns, and every column other than [creation_date]
    are as they were. *)
Theorem scale_creation_dates_frame (df : DataFrame F) (w : World F) :
  snd (scale_creation_dates df w) = ticked w /\
  (column df "creation_date" = None ->
   scale_creation_dates df w = (Raise (KeyError ["creation_date"]), ticked w)) /\
  (forall df' w',
     scale_creation_dates df w = (Ok df', w') ->
     index df' = index df /\
     map fst (columns df') = map fst (columns df) /\
     (forall name, String.eqb "creation_date" name = false ->
                   column df' name = column df name)).
Proof.
  split; [apply scale_creation_dates_world |]. split.
  - apply scale_creation_dates_missing.
  - intros df' w' H.
    apply scale_creation_dates_Ok in H as [dates [scaled [Hd [Ld [Hs [-> ->]]]]]].
    split; [reflexivity |]. split.
    + cbn [columns]. apply (names_update_present _ _ dates). exact Hd.
    + intros name Hname. unfold column. cbn [columns].
      rewrite lookup_update, Hname. reflexivity.
Qed.

Lemma Forall2_compose {A B C : Type} (R : A -> B -> Prop) (S : B -> C -> Prop)
  (T : A -> C -> Prop) (l : list A) (m : list B) (n : list C) :
  (forall a b c, R a b -> S b c -> T a c) ->
  Forall2 R l m -> Forall2 S m n -> Forall2 T l n.
Proof.
  intros HT H. revert n. induction H as [| a b l m Hab _ IH]; intros n Hn.
  - inversion Hn. constructor.
  - inversion Hn as [| b' c m' n' Hbc Hmn]; subst.
    constructor; [eapply HT; eassumption | apply IH; exact Hmn].
Qed.

(** X9. The scaling step is not idempotent: run a second time on the table
    it returned, it reads the clock again and divides the already scaled
    values by the second reading, so each creation date ends up as the
    timestamp divided by both readings. *)
Theorem scale_creation_dates_twice (df d1 d2 : DataFrame F) (w w1 w2 : World F) :
  scale_creation_dates df w = (Ok d1, w1) ->
  scale_creation_dates d1 w1 = (Ok d2, w2) ->
  ticks w2 = S (S (ticks w)) /\
  trace w2 = trace w ++ [EvNow (wall_clock (ticks w)); EvNow (wall_clock (S (ticks w)))] /\
  exists dates twice,
    column df "creation_date" = Some dates /\
    column d2 "creation_date" = Some twice /\
    Forall2 (fun x v =>
               exists t, as_float x = Some t /\
                         v = VFloat (num_div (num_div t (wall_clock (ticks w)))
                                             (wall_clock (S (ticks w)))))
            dates twice.
Proof.
  intros H1 H2.
  apply scale_creation_dates_Ok in H1 as [dates [scaled [Hd [Ld [Hs [-> ->]]]]]].
  apply scale_creation_dates_Ok in H2 as [dates' [twice [Hd' [Ld' [Hs' [-> ->]]]]]].
  revert Hd' Hs'. column_facts. cbn [ticks]. intros Hd' Hs'. injection Hd' as <-.
  split; [reflexivity |]. split; [cbn [trace]; rewrite <- app_assoc; reflexivity |].
  exists dates, twice. split; [exact Hd |]. split; [column_facts; reflexivity |].
  eapply Forall2_compose; [| exact Hs | exact Hs'].
  intros a b c Hab Hbc. unfold scaled_cell, truediv_float in Hab, Hbc.
  destruct a as [s | z | x |]; try discriminate Hab;
    destruct (num_is_zero (wall_clock (ticks w))); try discriminate Hab;
    injection Hab as <-;
    destruct (num_is_zero (wall_clock (S (ticks w)))); try discriminate Hbc;
    injection Hbc as <-; eexists; split; reflexivity.
Qed.

Lemma load_fake_news_data_world (file_name : string) (w : World F) :
  snd (load_fake_news_data file_name w)
  = emit (EvRequest (base_url ++ file_name)%string) w.
Proof. rewrite load_fake_news_data_run. reflexivity. Qed.

(** X11. [main] stops at the first load that raises. When loading the
    training set raises, [main] raises that error after the one request
    for the training set: the testing set is never requested. When the
    training set loads and loading the testing set raises, [main] raises
    after the two requests: the clock is not read, nothing is
    cross-validated, fitted or printed. *)
Theorem main_stops_at_failed_load (w : World F) :
  let training := (base_url ++ "fakenewsnet_modified_training_set.json")%string in
  let testing := (base_url ++ "fakenewsnet_modified_testing_set.json")%string in
  (forall e,
     fst (load_fake_news_training_data w) = Raise e ->
     main w = (Raise e, emit (EvRequest training) w)) /\
  (forall features labels e,
     fst (load_fake_news_training_data w) = Ok (features, labels) ->
     fst (load_fake_news_testing_data (emit (EvRequest training) w)) = Raise e ->
     main w = (Raise e, emit (EvRequest testing) (emit (EvRequest training) w))).
Proof.
  cbn zeta. split.
  - intros e H. unfold main. rewrite M_bind_run.
    rewrite (surjective_pairing (load_fake_news_training_data w)), H.
    unfold load_fake_news_training_data. rewrite load_fake_news_data_world.
    reflexivity.
  - intros features labels e H1 H2. unfold main. rewrite M_bind_run.
    rewrite (surjective_pairing (load_fake_news_training_data w)), H1.
    unfold load_fake_news_training_data at 1. rewrite load_fake_news_data_world.
    cbn beta iota. rewrite M_bind_run.
    rewrite (surjective_pairing (load_fake_news_testing_data _)), H2.
    unfold load_fake_news_testing_data. rewrite load_fake_news_data_world.
    reflexivity.
Qed.

(** X12. A run of [main] in which every step returns makes these outside
    calls, in this order and no others: the request for the training set,
    the request for the testing set, two readings of the clock (one per
    refined table), for each of the eight estimators a cross-validation on
    the refined training table with the training labels followed by its
    message, one [fit] on the refined training table and the training
    labels, one [evaluate] on the refined testing table and the testing
    labels, and the print of the accuracy. The testing data is passed to
    neither [cross_val_score] nor [fit]. *)
Theorem main_run (w : World F)
  (Xtrain Xtest Rtrain Rtest : DataFrame F) (ytrain ytest : list (value F))
  (scores : list (list F)) (trained : network F) (test_loss test_acc : F) :
  let training := (base_url ++ "fakenewsnet_modified_training_set.json")%string in
  let testing := (base_url ++ "fakenewsnet_modified_testing_set.json")%string in
  let loaded := emit (EvRequest testing) (emit (EvRequest training) w) in
  fst (load_fake_news_training_data w) = Ok (Xtrain, ytrain) ->
  fst (load_fake_news_testing_data (emit (EvRequest training) w)) = Ok (Xtest, ytest) ->
  fst (refine_fake_news_data Xtrain loaded) = Ok Rtrain ->
  fst (refine_fake_news_data Xtest (ticked loaded)) = Ok Rtest ->
  all_scored Rtrain ytrain models scores ->
  keras_fit create_neural_network (fit_epochs (values Rtrain) ytrain 400) = Ok trained ->
  keras_evaluate trained (values Rtest) ytest = Ok (test_loss, test_acc) ->
  main w
  = (Ok tt,
     {| ticks := S (S (ticks w));
        trace := trace w
                 ++ [ EvRequest training; EvRequest testing;
                      EvNow (wall_clock (ticks w)); EvNow (wall_clock (S (ticks w))) ]
                 ++ events_of Rtrain ytrain models scores
                 ++ [ EvFit (fit_epochs (values Rtrain) ytrain 400);
                      EvEvaluate (values Rtest) ytest;
                      EvPrint (str_float test_acc) ] |}).
Proof.
  cbn zeta. intros H1 H2 H3 H4 H5 H6 H7. unfold main.
  rewrite M_bind_run.
  rewrite (surjective_pairing (load_fake_news_training_data w)), H1.
  unfold load_fake_news_training_data at 1. rewrite load_fake_news_data_world.
  cbn beta iota. rewrite M_bind_run.
  rewrite (surjective_pairing (load_fake_news_testing_data _)), H2.
  unfold load_fake_news_testing_data at 1. rewrite load_fake_news_data_world.
  cbn beta iota. rewrite M_bind_run.
  rewrite (refine_fake_news_data_returned Xtrain Rtrain _ H3).
  rewrite M_bind_run.
  rewrite (refine_fake_news_data_returned Xtest Rtest _ H4).
  rewrite M_bind_run.
  change (evaluate_sklearn_models Rtrain ytrain) with (evaluation_loop Rtrain ytrain models).
  rewrite (evaluation_loop_returns Rtrain ytrain models scores _ H5).
  cbn zeta. rewrite M_bind_run.
  unfold train_neural_network, model_fit. rewrite H6.
  rewrite M_bind_run. unfold evaluate_neural_network. rewrite M_bind_run.
  unfold model_evaluate at 1. rewrite H7.
  unfold print, emit, ticked. cbn [ticks trace]. cbn [M_ret ret Monad_M].
  rewrite <- !app_assoc. cbn [ticks trace]. rewrite <- !app_assoc. reflexivity.
Qed.

Lemma world_eta (w : World F) : {| ticks := ticks w; trace := trace w ++ [] |} = w.
Proof. destruct w. cbn. rewrite app_nil_r. reflexivity. Qed.

Lemma evaluation_loop_cons (X : DataFrame F) (y : list (value F))
  (entry : string * classifier) (rest : list (string * classifier)) (w : World F) :
  evaluation_loop X y (entry :: rest) w
  = match cross_val_score (snd entry) X y (KFold_n_splits 10) "accuracy" with
    | Ok cv_results =>
        evaluation_loop X y rest
          (emit (EvPrint (msg_of (fst entry) cv_results))
             (emit (EvCrossValScore (snd entry) X y (KFold_n_splits 10) "accuracy") w))
    | Raise e =>
        (Raise e, emit (EvCrossValScore (snd entry) X y (KFold_n_splits 10) "accuracy") w)
    end.
Proof.
  unfold evaluation_loop. cbn [for_each]. rewrite !M_bind_run.
  unfold model_selection_cross_val_score at 1.
  destruct (cross_val_score (snd entry) X y (KFold_n_splits 10) "accuracy");
    reflexivity.
Qed.

Lemma evaluation_loop_outcome (X : DataFrame F) (y : list (value F))
  (entries : list (string * classifier)) (w : World F) :
  exists k t,
    snd (evaluation_loop X y entries w) = {| ticks := ticks w; trace := trace w ++ t |} /\
    k <= List.length entries /\
    cross_validations t
    = firstn k (map (fun entry => (snd entry, KFold_n_splits 10, "accuracy")) entries) /\
    fitted t = [] /\
    (forall u, fst (evaluation_loop X y entries w) = Ok u ->
               k = List.length entries /\ List.length (printed t) = k) /\
    (forall e, fst (evaluation_loop X y entries w) = Raise e ->
               S (List.length (printed t)) = k).
Proof.
  revert w. induction entries as [| entry rest IH]; intros w.
  - exists 0, []. cbn. rewrite world_eta.
    repeat split; try reflexivity; try lia. discriminate.
  - rewrite evaluation_loop_cons.
    destruct (cross_val_score (snd entry) X y (KFold_n_splits 10) "accuracy")
      as [cv_results | e].
    + destruct (IH (emit (EvPrint (msg_of (fst entry) cv_results))
                      (emit (EvCrossValScore (snd entry) X y (KFold_n_splits 10) "accuracy") w)))
        as [k [t [Hw [Hk [Hcv [Hfit [Hok Herr]]]]]]].
      exists (S k),
        ([EvCrossValScore (snd entry) X y (KFold_n_splits 10) "accuracy";
          EvPrint (msg_of (fst entry) cv_results)] ++ t).
      split.
      { rewrite Hw. unfold emit. cbn [ticks trace]. rewrite <- !app_assoc. reflexivity. }
      split; [cbn [List.length]; lia |].
      split; [cbn [app cross_validations flat_map map firstn];
              fold (cross_validations t); rewrite Hcv; reflexivity |].
      split; [cbn [app fitted flat_map]; fold (fitted t); exact Hfit |].
      split.
      * intros u Hu. destruct (Hok u Hu) as [-> Hp].
        cbn [app printed flat_map List.length]. fold (printed t).
        split; [reflexivity | rewrite Hp; reflexivity].
      * intros e He. cbn [app printed flat_map List.length]. fold (printed t).
        rewrite (Herr e He). reflexivity.
    + exists 1, [EvCrossValScore (snd entry) X y (KFold_n_splits 10) "accuracy"].
      cbn [fst snd]. split; [reflexivity |].
      split; [cbn [List.length]; lia |].
      split; [reflexivity |]. split; [reflexivity |].
      split; [discriminate | intros; reflexivity].
Qed.

(** X13. Whatever the library calls return, [evaluate_sklearn_models] reads
    no clock and fits no network; it cross-validates a first part of the
    list of eight estimators, in the order of the list, each with the same
    splitter and score, and stops at the first call that raises. It has
    printed one message per cross-validation when it returns, and one
    fewer when it raises. *)
Theorem evaluate_sklearn_models_outcome (X : DataFrame F) (y : list (value F))
  (w : World F) :
  exists k t,
    snd (evaluate_sklearn_models X y w) = {| ticks := ticks w; trace := trace w ++ t |} /\
    k <= 8 /\
    cross_validations t
    = firstn k (map (fun entry => (snd entry, KFold_n_splits 10, "accuracy")) models) /\
    fitted t = [] /\
    (forall u, fst (evaluate_sklearn_models X y w) = Ok u ->
               k = 8 /\ List.length (printed t) = 8) /\
    (forall e, fst (evaluate_sklearn_models X y w) = Raise e ->
               S (List.length (printed t)) = k).
Proof.
  destruct (evaluation_loop_outcome X y models w) as [k [t [Hw [Hk [Hcv [Hfit [Hok Herr]]]]]]].
  exists k, t. split; [exact Hw |]. split; [exact Hk |].
  split; [exact Hcv |]. split; [exact Hfit |]. split; [| exact Herr].
  intros u Hu. destruct (Hok u Hu) as [Hk8 Hp]. split; [exact Hk8 |].
  rewrite Hp. exact Hk8.
Qed.

Lemma mapM_raises {A B : Type} (f : A -> result B) (l : list A) (e : exn) :
  Forall (fun a => (exists b, f a = Ok b) \/ f a = Raise e) l ->
  Exists (fun a => f a = Raise e) l ->
  mapM f l = Raise e.
Proof.
  induction 1 as [| a t Ha _ IH]; intros Hex.
  - inversion Hex.
  - cbn [mapM]. destruct Ha as [[b Hb] | Hr].
    + rewrite Hb, result_bind_ret.
      inversion Hex as [? ? Hra | ? ? Ht]; subst; [congruence |].
      rewrite (IH Ht). reflexivity.
    + rewrite Hr. reflexivity.
Qed.

Lemma text_or_type_error {B : Type} (f : value F -> result B) (col : list (value F)) :
  (forall s, exists b, f (VStr s) = Ok b) ->
  (forall v, ~ is_text v -> f v = Raise TypeError) ->
  Exists (fun v => ~ is_text v) col ->
  mapM f col = Raise TypeError.
Proof.
  intros Htext Hother Hex. apply mapM_raises.
  - apply Forall_forall. intros v _. destruct v as [s | z | x |];
      [left; apply Htext | right; apply Hother; cbn; tauto ..].
  - apply Exists_exists in Hex as [v [Hin Hv]]. apply Exists_exists.
    exists v. split; [exact Hin | apply Hother; exact Hv].
Qed.

Lemma add_suspicious_country_column_text (df : DataFrame F) :
  column_of is_text df "country" ->
  exists flags,
    add_suspicious_country_column df
    = Ok {| index := index df;
            columns := update "is_suspicious_country" flags (columns df) |}.
Proof.
  intros H. unfold add_suspicious_country_column.
  apply (derived_column_total df _ _ _ is_text H).
  intros [s | z | x |] Hx; cbn in Hx; try contradiction.
  destruct (is_suspicious_country_text (F:=F) s) as [z Hz].
  rewrite Hz. eexists. reflexivity.
Qed.

(** X14. A missing column makes the pipeline raise [KeyError] for that
    column, at the step that first reads it: [country] first; then
    [article_text]; then, once the features are added, the dropped columns
    that are absent (all of them named in the error); and last
    [creation_date], by which time the clock has been read. In the first
    three cases the world is left as it was. *)
Theorem refine_fake_news_data_missing_column (df : DataFrame F) (w : World F) :
  (column df "country" = None ->
   refine_fake_news_data df w = (Raise (KeyError ["country"]), w)) /\
  (column_of is_text df "country" -> column df "article_text" = None ->
   refine_fake_news_data df w = (Raise (KeyError ["article_text"]), w)) /\
  (forall d1 m ms,
     add_features df = Ok d1 ->
     filter (fun n => negb (has_column df n)) dropped_columns = m :: ms ->
     refine_fake_news_data df w = (Raise (KeyError (m :: ms)), w)) /\
  (forall d1,
     add_features df = Ok d1 ->
     Forall (fun n => has_column df n = true) dropped_columns ->
     column df "creation_date" = None ->
     refine_fake_news_data df w = (Raise (KeyError ["creation_date"]), ticked w)).
Proof.
  unfold refine_fake_news_data. rewrite lift_bind. split; [| split; [| split]].
  - intros H. unfold add_features, add_suspicious_country_column.
    rewrite (getitem_missing _ _ H). reflexivity.
  - intros Hc Ht. unfold add_features.
    destruct (add_suspicious_country_column_text df Hc) as [flags ->].
    rewrite result_bind_ret. unfold add_flesch_reading_ease_column.
    rewrite getitem_missing by (column_facts; exact Ht). reflexivity.
  - intros d1 m ms H1 Hm. rewrite H1, lift_bind.
    apply add_features_Ok in H1
      as [country [text [flags [scores [ratios [pairs
           [Hc [Ht [Hflags [Hscores [Hratios [Hpairs [Lc [Lt [Hn ->]]]]]]]]]]]]]]].
    unfold drop_features, drop.
    erewrite filter_ext_in; [rewrite Hm; reflexivity |].
    intros n Hin. cbn beta. f_equal. destruct df as [i c].
    apply has_column_added, dropped_not_computed, Hin.
  - intros d1 H1 Hall Hd. rewrite H1, lift_bind.
    apply add_features_Ok in H1
      as [country [text [flags [scores [ratios [pairs
           [Hc [Ht [Hflags [Hscores [Hratios [Hpairs [Lc [Lt [Hn ->]]]]]]]]]]]]]]].
    match goal with
    | |- context [drop_features ?d] =>
        assert (drop_features d
                = Ok {| index := map Z.of_nat (seq 0 (nrows d));
                        columns := filter (fun c => negb (mem (fst c) dropped_columns))
                                     (columns d) |}) as H2
    end.
    { apply drop_features_Ok. split; [| reflexivity].
      apply Forall_forall. intros n Hin.
      rewrite Forall_forall in Hall. rewrite <- (Hall n Hin).
      destruct df as [i c]. apply has_column_added, dropped_not_computed, Hin. }
    rewrite H2, M_bind_run. unfold scale_features. rewrite M_bind_run.
    rewrite scale_creation_dates_missing by (column_facts; exact Hd).
    reflexivity.
Qed.

(** X15. One cell that is not text (a missing value, a number) in the
    [country] column makes the whole pipeline raise [TypeError], from the
    substring test of [is_suspicious_country]; the clock is not read. *)
Theorem refine_fake_news_data_missing_value (df : DataFrame F) (w : World F)
  (col : list (value F)) :
  column df "country" = Some col ->
  Exists (fun v => ~ is_text v) col ->
  refine_fake_news_data df w = (Raise TypeError, w).
Proof.
  intros Hc Hex. unfold refine_fake_news_data. rewrite lift_bind.
  unfold add_features, add_suspicious_country_column.
  rewrite (proj2 (getitem_Ok _ _ _) Hc), result_bind_ret. unfold apply.
  rewrite text_or_type_error; [reflexivity | | | exact Hex].
  - intros s. destruct (is_suspicious_country_text (F:=F) s) as [z Hz].
    rewrite Hz. eexists. reflexivity.
  - intros v Hv. rewrite (is_suspicious_country_not_text v Hv). reflexivity.
Qed.

Lemma Forall2_functional {A B : Type} (f : A -> result B) (l : list A) (m n : list B) :
  Forall2 (fun a b => f a = Ok b) l m ->
  Forall2 (fun a b => f a = Ok b) l n ->
  m = n.
Proof.
  intros H. revert n. induction H as [| a b l m Hab _ IH]; intros n Hn.
  - inversion Hn. reflexivity.
  - inversion Hn as [| a' c l' n' Hac Hln]; subst.
    rewrite (IH _ Hln). congruence.
Qed.

Lemma names_update {A : Type} (n : string) (v v' : A) (cols : list (string * A)) :
  map fst (update n v cols) = map fst (update n v' cols).
Proof.
  induction cols as [| [k x] rest IH]; cbn [update map fst]; [reflexivity |].
  destruct (String.eqb k n); cbn [map fst]; [reflexivity |].
  rewrite IH. reflexivity.
Qed.

(** X16. The clock is the only thing that makes two runs of the pipeline
    on the same table differ: the tables they return have the same row
    labels, the same column names in the same order and the same cells in
    every column other than [creation_date]; they are equal when the two
    readings of the clock are equal. *)
Theorem refine_fake_news_data_reproducible (df d1 d2 : DataFrame F)
  (w1 w1' w2 w2' : World F) :
  refine_fake_news_data df w1 = (Ok d1, w1') ->
  refine_fake_news_data df w2 = (Ok d2, w2') ->
  index d1 = index d2 /\
  map fst (columns d1) = map fst (columns d2) /\
  (forall name, String.eqb "creation_date" name = false ->
                column d1 name = column d2 name) /\
  (wall_clock (ticks w1) = wall_clock (ticks w2) -> d1 = d2).
Proof.
  intros H1 H2. apply refine_fake_news_data_refines in H1, H2.
  destruct H1 as [country text dates flags scores ratios scaled pairs
                  Hc Ht Hd _ _ _ _ _ Hflags Hscores Hratios Hpairs Hs].
  destruct H2 as [country' text' dates' flags' scores' ratios' scaled' pairs'
                  Hc' Ht' Hd' _ _ _ _ _ Hflags' Hscores' Hratios' Hpairs' Hs'].
  rewrite Hc in Hc'. injection Hc' as <-.
  rewrite Ht in Ht'. injection Ht' as <-.
  rewrite Hd in Hd'. injection Hd' as <-.
  rewrite <- (Forall2_functional _ _ _ _ Hflags Hflags').
  rewrite <- (Forall2_functional _ _ _ _ Hscores Hscores').
  rewrite <- (Forall2_functional _ _ _ _ Hratios Hratios').
  rewrite <- (Forall2_functional _ _ _ _ Hpairs Hpairs').
  split; [reflexivity |]. split; [cbn [columns]; apply names_update |]. split.
  - intros name Hname. unfold column, refined_columns. cbn [columns].
    rewrite !lookup_update, Hname. reflexivity.
  - intros Hclock. rewrite <- Hclock in Hs'.
    rewrite <- (Forall2_functional _ _ _ _ Hs Hs'). reflexivity.
Qed.

End Further.

Section FurtherExact.
Context {L : Libraries Q}.
Local Open Scope Q_scope.


End FurtherExact.

(** ** Further runs on the sample data *)

(** X3 on the sample table without rows. *)
Lemma no_rows_no_sentiment_sample :
  nrows Sample.no_articles = 0 /\
  add_sentiment_columns (L:=Sample.libraries) Sample.no_articles = Raise ValueError /\
  refine_fake_news_data (L:=Sample.libraries) Sample.no_articles Sample.world
  = (Raise ValueError, Sample.world).
Proof.
  destruct (no_rows_no_sentiment (L:=Sample.libraries) Sample.no_articles Sample.world
              eq_refl eq_refl eq_refl) as [_ [_ [_ [Hs [_ Hr]]]]].
  split; [reflexivity |]. split; [exact Hs | exact Hr].
Defined.

(** X4 on the sample articles. *)
Lemma refine_fake_news_data_not_repeatable_sample :
  exists df' w',
    refine_fake_news_data (L:=Sample.libraries) Sample.articles Sample.world = (Ok df', w') /\
    refine_fake_news_data (L:=Sample.libraries) df' w' = (Raise (KeyError ["country"]), w').
Proof.
  eexists. eexists. split; [reflexivity |].
  exact (refine_fake_news_data_not_repeatable (L:=Sample.libraries)
           Sample.articles _ Sample.world _ _ eq_refl).
Defined.

(** X5 on the sample articles. *)
Lemma add_features_idempotent_sample :
  exists df',
    add_features (L:=Sample.libraries) Sample.articles = Ok df' /\
    add_features (L:=Sample.libraries) df' = Ok df'.
Proof.
  eexists. split; [reflexivity |].
  exact (add_features_idempotent (L:=Sample.libraries) Sample.articles _ eq_refl).
Defined.

(** X6 on the sample articles. *)
Lemma refine_fake_news_data_column_order_sample :
  exists df' w',
    refine_fake_news_data (L:=Sample.libraries) Sample.articles Sample.world = (Ok df', w') /\
    map fst (columns df')
    = [ "creation_date"; "share_count"; "is_suspicious_country"; "flesch_reading_ease";
        "percent_difficult_words"; "article_polarity"; "article_subjectivity" ].
Proof.
  eexists. eexists. split; [reflexivity |].
  assert (Forall (fun n => has_column Sample.articles n = false) added_feature_columns)
    as Hnew by (repeat constructor).
  exact (refine_fake_news_data_column_order (L:=Sample.libraries)
           Sample.articles _ Sample.world _ Hnew eq_refl).
Defined.

(** X9 on the sample articles. *)
Lemma scale_creation_dates_twice_sample :
  exists d1 w1 d2 w2,
    scale_creation_dates (L:=Sample.libraries) Sample.articles Sample.world = (Ok d1, w1) /\
    scale_creation_dates (L:=Sample.libraries) d1 w1 = (Ok d2, w2) /\
    ticks w2 = 2.
Proof.
  do 4 eexists. split; [reflexivity |]. split; [reflexivity |].
  exact (proj1 (scale_creation_dates_twice (L:=Sample.libraries)
                  Sample.articles _ _ Sample.world _ _ eq_refl eq_refl)).
Defined.


(** X12 on the sample libraries. *)
Lemma main_run_sample :
  exists w',
    main (L:=Sample.libraries) Sample.world = (Ok tt, w') /\
    ticks w' = 2 /\
    List.length (printed (trace w')) = 9 /\
    List.length (fitted (trace w')) = 1.
Proof.
  eexists. split.
  - eapply (main_run (L:=Sample.libraries) Sample.world).
    + reflexivity.
    + reflexivity.
    + reflexivity.
    + reflexivity.
    + repeat econstructor.
    + reflexivity.
    + reflexivity.
  - repeat split.
Defined.

(** X14 on the sample articles without titles. *)
Lemma refine_fake_news_data_missing_column_sample :
  refine_fake_news_data (L:=Sample.libraries) Sample.untitled Sample.world
  = (Raise (KeyError ["title"]), Sample.world).
Proof.
  destruct (refine_fake_news_data_missing_column (L:=Sample.libraries)
              Sample.untitled Sample.world) as [_ [_ [Hdropped _]]].
  exact (Hdropped _ "title" [] eq_refl eq_refl).
Defined.

(** X15 on the sample articles with a missing country. *)
Lemma refine_fake_news_data_missing_value_sample :
  refine_fake_news_data (L:=Sample.libraries) Sample.unregistered Sample.world
  = (Raise TypeError, Sample.world).
Proof.
  apply (refine_fake_news_data_missing_value (L:=Sample.libraries)
           Sample.unregistered Sample.world [VStr "US"; VNone] eq_refl).
  apply Exists_cons_tl, Exists_cons_hd. cbn. tauto.
Defined.

(** X16 on the sample articles, at the start of a run and later in it. *)
Lemma refine_fake_news_data_reproducible_sample :
  exists d1 w1' d2 w2',
    refine_fake_news_data (L:=Sample.libraries) Sample.articles Sample.world = (Ok d1, w1') /\
    refine_fake_news_data (L:=Sample.libraries) Sample.articles Sample.later = (Ok d2, w2') /\
    d1 = d2.
Proof.
  do 4 eexists. split; [reflexivity |]. split; [reflexivity |].
  exact (proj2 (proj2 (proj2
           (refine_fake_news_data_reproducible (L:=Sample.libraries)
              Sample.articles _ _ Sample.world _ Sample.later _ eq_refl eq_refl)))
           eq_refl).
Defined.
